(** * psutil on SunOS: the Process handle and its error classifier

    A shallow embedding of [psutil/_pssunos.py]: the [wrap_exceptions]
    decorator and the [Process] accessors that enumerate threads, open
    files, memory maps and connections, read and set the priority, and
    report the executable path.

    Every call that leaves Python (the C extensions [_psutil_sunos] and
    [_psutil_posix], [os], [subprocess], and the helpers of [_psposix]
    and [_common]) is a field of the record [OS]: a function from the
    state of the world to an outcome and a new state of the world.  The
    accessors are written in the state-and-exception monad [M] over that
    record, so every statement below holds for every behaviour of the
    operating system. *)

From Stdlib Require Import ZArith String Ascii List Lia.
From Stdlib Require DecimalString HexadecimalString HexadecimalN.
From stdpp Require Import base option list gmap strings.

Local Open Scope string_scope.
Local Open Scope list_scope.
Local Open Scope Z_scope.

(** ** Python built-ins used by the module *)

Module Py.

(** [str(n)], ['%d' % n] and ['%s' % n] for an integer. *)
Definition str (n : Z) : string :=
  DecimalString.NilZero.string_of_int (Z.to_int n).

(** [hex(n)]: ['0x..'] with lower-case digits, ['-0x..'] below zero. *)
Definition hex (n : Z) : string :=
  (if n <? 0 then "-0x" else "0x")
  +:+ HexadecimalString.NilZero.string_of_uint (N.to_hex_uint (Z.abs_N n)).

(** [s[n:]] for [0 <= n]. *)
Fixpoint drop (n : nat) (s : string) : string :=
  match n, s with
  | O, _ => s
  | S _, EmptyString => EmptyString
  | S n', String _ s' => drop n' s'
  end.

Definition char_in (c : ascii) (chars : list ascii) : bool :=
  existsb (Ascii.eqb c) chars.

Fixpoint lstrip_chars (chars : list ascii) (s : string) : string :=
  match s with
  | EmptyString => EmptyString
  | String c s' => if char_in c chars then lstrip_chars chars s' else s
  end.

Fixpoint rstrip_chars (chars : list ascii) (s : string) : string :=
  match s with
  | EmptyString => EmptyString
  | String c s' =>
      match rstrip_chars chars s' with
      | EmptyString => if char_in c chars then EmptyString else String c EmptyString
      | t => String c t
      end
  end.

(** [s.strip(chars)]. *)
Definition strip_chars (chars : list ascii) (s : string) : string :=
  rstrip_chars chars (lstrip_chars chars s).

(** The characters [str.lstrip()] and [str.strip()] remove when called
    without argument: space, tab, line feed, vertical tab, form feed and
    carriage return. *)
Definition whitespace : list ascii :=
  [" "%char; ascii_of_nat 9; ascii_of_nat 10; ascii_of_nat 11;
   ascii_of_nat 12; ascii_of_nat 13].

Definition lstrip : string -> string := lstrip_chars whitespace.
Definition strip : string -> string := strip_chars whitespace.

(** [s.split(sep)] for a one-character separator: never empty. *)
Fixpoint split (sep : ascii) (s : string) : list string :=
  match s with
  | EmptyString => [EmptyString]
  | String c s' =>
      if Ascii.eqb c sep then EmptyString :: split sep s'
      else match split sep s' with
           | [] => [String c EmptyString]
           | piece :: pieces => String c piece :: pieces
           end
  end.

(** [s.split(sep, maxsplit)]: at most [maxsplit] cuts, the rest is kept
    whole as the last piece. *)
Fixpoint split_max (sep : ascii) (maxsplit : nat) (s : string) : list string :=
  match maxsplit with
  | O => [s]
  | S m =>
      match s with
      | EmptyString => [EmptyString]
      | String c s' =>
          if Ascii.eqb c sep then EmptyString :: split_max sep m s'
          else match split_max sep maxsplit s' with
               | [] => [String c EmptyString]
               | piece :: pieces => String c piece :: pieces
               end
      end
  end.

(** [s.startswith(p)]. *)
Definition startswith (p s : string) : bool := String.prefix p s.

Definition lower_char (c : ascii) : ascii :=
  let n := nat_of_ascii c in
  if (65 <=? n)%nat && (n <=? 90)%nat then ascii_of_nat (n + 32) else c.

(** [s.lower()] on ASCII text. *)
Fixpoint lower (s : string) : string :=
  match s with
  | EmptyString => EmptyString
  | String c s' => String (lower_char c) (lower s')
  end.

(** [needle in hay] for strings. *)
Fixpoint contains (needle hay : string) : bool :=
  String.prefix needle hay ||
  match hay with
  | EmptyString => false
  | String _ hay' => contains needle hay'
  end.

(** [sep.join(pieces)]. *)
Definition join (sep : string) (pieces : list string) : string :=
  String.concat sep pieces.

(** [l[i]] with Python's negative indices; [None] stands for IndexError. *)
Definition index {A} (l : list A) (i : Z) : option A :=
  let n := Z.of_nat (length l) in
  let j := if i <? 0 then i + n else i in
  if (0 <=? j) && (j <? n) then l !! Z.to_nat j else None.

(** [l[n:]]. *)
Definition slice_from {A} (n : nat) (l : list A) : list A := List.skipn n l.

(** [os.path.join(a, b)] of posixpath. *)
Definition path_join (a b : string) : string :=
  if startswith "/" b then b
  else if String.eqb a "" || String.eqb (Py.drop (String.length a - 1) a) "/"
       then a +:+ b
       else a +:+ "/" +:+ b.

(** [int(s)] on a string: surrounding white space, an optional sign and
    decimal digits.  [None] stands for ValueError. *)
Definition int (s : string) : option Z :=
  match strip s with
  | String "+" digits =>
      Z.of_int <$> (Decimal.Pos <$> DecimalString.NilZero.uint_of_string digits)
  | t => Z.of_int <$> DecimalString.NilZero.int_of_string t
  end.

Definition quote : ascii := ascii_of_nat 39.
Definition dquote : ascii := ascii_of_nat 34.
Definition backslash : ascii := ascii_of_nat 92.

Definition hex_digit (n : nat) : ascii :=
  if (n <? 10)%nat then ascii_of_nat (48 + n) else ascii_of_nat (87 + n).

Fixpoint repr_body (q : ascii) (s : string) : string :=
  match s with
  | EmptyString => EmptyString
  | String c s' =>
      let n := nat_of_ascii c in
      let esc (t : string) := String backslash t in
      (if Ascii.eqb c backslash then esc (String backslash EmptyString)
       else if Ascii.eqb c q then esc (String q EmptyString)
       else if (n =? 9)%nat then esc "t"
       else if (n =? 10)%nat then esc "n"
       else if (n =? 13)%nat then esc "r"
       else if (n <? 32)%nat || (126 <? n)%nat
            then esc (String "x" (String (hex_digit (n / 16))
                                    (String (hex_digit (n mod 16)) EmptyString)))
       else String c EmptyString)
      +:+ repr_body q s'
  end.

Fixpoint has_char (c : ascii) (s : string) : bool :=
  match s with
  | EmptyString => false
  | String d s' => Ascii.eqb c d || has_char c s'
  end.

(** [repr(s)] (and ['%r' % s]) of a byte string: single quotes, unless
    the text holds a single quote and no double quote. *)
Definition repr (s : string) : string :=
  let q := if has_char quote s && negb (has_char dquote s) then dquote else quote in
  String q (repr_body q s +:+ String q EmptyString).

End Py.

(** ** Exceptions and outcomes *)

(** Modelled from the spec: [NoSuchProcess] and [AccessDenied], the two
    domain error kinds of [psutil._error] (sections 4.1 and 7), each
    carrying the id and the cached name of the handle; they are no
    low-level I/O failures.  The other constructors are the built-in
    exceptions the module raises or lets through.  [EnvironmentError]
    stands for the whole family of low-level I/O failures ([OSError] and
    [IOError] are its subclasses, and one class since PEP 3151) and
    carries the failure's [errno]. *)
Inductive exn : Type :=
| EnvironmentError (errno : Z)
| NoSuchProcess (pid : Z) (name : option string)
| AccessDenied (pid : Z) (name : option string)
| ValueError (msg : string)
| KeyError (key : Z)
| IndexError
| AttributeError (attr : string)
| RuntimeError (msg : string).

#[global] Instance exn_eq_dec : EqDecision exn.
Proof. solve_decision. Defined.

Inductive result (A : Type) : Type :=
| Ok (a : A)
| Raise (e : exn).
Arguments Ok {A} a.
Arguments Raise {A} e.

(** The codes of [errno] the module names (their values on SunOS). *)
Module errno.
Definition EPERM : Z := 1.
Definition ENOENT : Z := 2.
Definition ESRCH : Z := 3.
Definition EACCES : Z := 13.
End errno.

(** ** Data *)

(** Modelled from the spec: the connection statuses, the [CONN_*]
    constants of [psutil._common] (section 3, ConnectionStatus). *)
Inductive conn_status : Type :=
| CONN_ESTABLISHED | CONN_SYN_SENT | CONN_SYN_RECV | CONN_FIN_WAIT1
| CONN_FIN_WAIT2 | CONN_TIME_WAIT | CONN_CLOSE | CONN_CLOSE_WAIT
| CONN_LAST_ACK | CONN_LISTEN | CONN_CLOSING | CONN_NONE
| CONN_IDLE | CONN_BOUND.

(** A socket address as the module passes it on: the pair of an inet
    address, the empty tuple of an unconnected end, or the text of a
    unix socket. *)
Inductive address : Type :=
| addr_inet (ip : string) (port : Z)
| addr_empty
| addr_text (s : string).

(** The instance: [__slots__ = ["pid", "_process_name"]]. *)
Record Process : Type := { pid : Z; _process_name : option string }.

(** [Process.__init__]. *)
Definition __init__ (pid : Z) : Process :=
  {| pid := pid; _process_name := None |}.

(** Modelled from the spec: the named tuples of [psutil._common] the
    accessors build (section 3: ThreadRecord, OpenFileRecord and
    ConnectionRecord). *)
Record thread (float : Type) : Type :=
  nt_proc_thread { thread_id : Z; user_time : float; system_time : float }.
Arguments nt_proc_thread {float} _ _ _.

Record openfile : Type := nt_proc_file { file_path : string; file_fd : Z }.

Record connection : Type := nt_proc_conn {
  conn_fd : Z; conn_family : Z; conn_type : Z;
  conn_laddr : address; conn_raddr : address; conn_status_of : conn_status }.

(** An item of [get_proc_connections]:
    [(fd, fam, type, laddr, raddr, status)]. *)
Definition raw_conn : Type := Z * Z * Z * address * address * Z.

(** An item of [get_proc_memory_maps]:
    [(addr, addrsize, perm, name, rss, anon, locked)]. *)
Definition raw_mmap : Type := Z * Z * string * string * Z * Z * Z.

(** An item of the list [get_memory_maps] returns:
    [(addr, perm, name, rss, anon, locked)]. *)
Definition mmap_ext : Type := string * string * string * Z * Z * Z.

(** The constants the module reads from [_psutil_sunos], [socket] and
    [psutil._common]. *)
Record Platform : Type := {
  TCPS_ESTABLISHED : Z; TCPS_SYN_SENT : Z; TCPS_SYN_RCVD : Z;
  TCPS_FIN_WAIT_1 : Z; TCPS_FIN_WAIT_2 : Z; TCPS_TIME_WAIT : Z;
  TCPS_CLOSED : Z; TCPS_CLOSE_WAIT : Z; TCPS_LAST_ACK : Z;
  TCPS_LISTEN : Z; TCPS_CLOSING : Z; PSUTIL_CONN_NONE : Z;
  TCPS_IDLE : Z; TCPS_BOUND : Z;
  AF_UNIX : Z; SOCK_STREAM : Z; SOCK_DGRAM : Z;
  (** [conn_tmap]: kind to (families, types) *)
  conn_tmap : gmap string (list Z * list Z)
}.

(** A dict display [{k1: v1, k2: v2, ...}]: a later item wins. *)
Definition dict {V} (items : list (Z * V)) : gmap Z V :=
  fold_left (fun m kv => <[kv.1 := kv.2]> m) items ∅.

Definition TCP_STATUSES (pf : Platform) : gmap Z conn_status :=
  dict [
    (TCPS_ESTABLISHED pf, CONN_ESTABLISHED);
    (TCPS_SYN_SENT pf, CONN_SYN_SENT);
    (TCPS_SYN_RCVD pf, CONN_SYN_RECV);
    (TCPS_FIN_WAIT_1 pf, CONN_FIN_WAIT1);
    (TCPS_FIN_WAIT_2 pf, CONN_FIN_WAIT2);
    (TCPS_TIME_WAIT pf, CONN_TIME_WAIT);
    (TCPS_CLOSED pf, CONN_CLOSE);
    (TCPS_CLOSE_WAIT pf, CONN_CLOSE_WAIT);
    (TCPS_LAST_ACK pf, CONN_LAST_ACK);
    (TCPS_LISTEN pf, CONN_LISTEN);
    (TCPS_CLOSING pf, CONN_CLOSING);
    (PSUTIL_CONN_NONE pf, CONN_NONE);
    (TCPS_IDLE pf, CONN_IDLE);
    (TCPS_BOUND pf, CONN_BOUND)
  ].

(** ** The monad of the accessors *)

Section Monad.
Context {W : Type}.

(** A computation reads and changes the world and returns or raises. *)
Definition M (A : Type) : Type := W -> result A * W.

Definition pure {A} (a : A) : M A := fun w => (Ok a, w).

Definition raise {A} (e : exn) : M A := fun w => (Raise e, w).

Definition bind {A B} (m : M A) (k : A -> M B) : M B :=
  fun w =>
    match m w with
    | (Ok a, w') => k a w'
    | (Raise e, w') => (Raise e, w')
    end.

(** [try: body / except EnvironmentError: handler / else: orelse].  The
    handler gets the [errno] of the failure; a bare [raise] in it is
    [raise (EnvironmentError err)]. *)
Definition try_except_EnvironmentError {A B}
    (body : M A) (handler : Z -> M B) (orelse : A -> M B) : M B :=
  fun w =>
    match body w with
    | (Ok a, w') => orelse a w'
    | (Raise (EnvironmentError err), w') => handler err w'
    | (Raise e, w') => (Raise e, w')
    end.

(** [for x in xs: body], the loop's variables threaded as [s]. *)
Fixpoint for_ {X S} (xs : list X) (body : X -> S -> M S) (s : S) : M S :=
  match xs with
  | [] => pure s
  | x :: xs' => bind (body x s) (for_ xs' body)
  end.

End Monad.
Arguments M W A : clear implicits.

Notation "x <- m ; k" := (bind m (fun x => k))
  (at level 20, m at level 100, k at level 200, only parsing).
Notation "' pat <- m ; k" := (bind m (fun x => match x with pat => k end))
  (at level 20, pat pattern, m at level 100, k at level 200, only parsing).

(** ** The operating system *)

(** What the module calls outside itself; [float] is the type of the
    CPU times the C extension returns.
    - [get_proc_name_and_args], [query_process_thread],
      [get_proc_memory_maps], [get_proc_connections]: [_psutil_sunos];
    - [getpriority], [setpriority]: [_psutil_posix];
    - [pid_exists]: [_psposix.pid_exists];
    - [os_listdir], [os_readlink], [os_stat], [os_path_islink]: [os];
    - [isfile_strict]: [psutil._common];
    - [pfiles]: [subprocess.Popen(cmd, shell=True, ...)] followed by
      [communicate()], giving [(returncode, stdout, stderr)]. *)
Record OS (W float : Type) : Type := {
  get_proc_name_and_args : Z -> M W (string * string);
  query_process_thread : Z -> Z -> M W (float * float);
  get_proc_memory_maps : Z -> M W (list raw_mmap);
  get_proc_connections : Z -> list Z -> list Z -> M W (list raw_conn);
  getpriority : Z -> M W Z;
  setpriority : Z -> Z -> M W unit;
  pid_exists : Z -> M W bool;
  os_listdir : string -> M W (list string);
  os_readlink : string -> M W string;
  os_stat : string -> M W unit;
  os_path_islink : string -> M W bool;
  isfile_strict : string -> M W bool;
  pfiles : string -> M W (Z * string * string)
}.
Arguments get_proc_name_and_args {W float} _ _ _.
Arguments query_process_thread {W float} _ _ _ _.
Arguments get_proc_memory_maps {W float} _ _ _.
Arguments get_proc_connections {W float} _ _ _ _ _.
Arguments getpriority {W float} _ _ _.
Arguments setpriority {W float} _ _ _ _.
Arguments pid_exists {W float} _ _ _.
Arguments os_listdir {W float} _ _ _.
Arguments os_readlink {W float} _ _ _.
Arguments os_stat {W float} _ _ _.
Arguments os_path_islink {W float} _ _ _.
Arguments isfile_strict {W float} _ _ _.
Arguments pfiles {W float} _ _ _.

(** ** wrap_exceptions and the Process accessors *)

Section Accessors.
Context {W float : Type} (os : OS W float) (pf : Platform).

Import errno.

(** [int(s)], raising ValueError. *)
Definition int (s : string) : M W Z :=
  match Py.int s with
  | Some n => pure n
  | None =>
      raise (ValueError ("invalid literal for int() with base 10: " +:+ Py.repr s))
  end.

(** [seq[i]] on a list, raising IndexError. *)
Definition getitem {A} (l : list A) (i : Z) : M W A :=
  match Py.index l i with
  | Some a => pure a
  | None => raise IndexError
  end.

(** [wrap_exceptions(callable)]: the wrapper it returns.  [Args] stands
    for [*args, **kwargs]. *)
Definition wrap_exceptions {Args A}
    (callable : Process -> Args -> M W A) : Process -> Args -> M W A :=
  fun self args =>
    try_except_EnvironmentError (callable self args)
      (fun err =>
         if bool_decide (err ∈ [ENOENT; ESRCH]) then
           raise (NoSuchProcess (pid self) (_process_name self))
         else if bool_decide (err ∈ [EPERM; EACCES]) then
           raise (AccessDenied (pid self) (_process_name self))
         else raise (EnvironmentError err))
      pure.

(** [Process.get_name]. *)
Definition get_name : Process -> unit -> M W string :=
  wrap_exceptions (fun self _ =>
    r <- get_proc_name_and_args os (pid self) ;
    pure r.1).

(** [Process.get_cmdline]. *)
Definition get_cmdline : Process -> unit -> M W (list string) :=
  wrap_exceptions (fun self _ =>
    r <- get_proc_name_and_args os (pid self) ;
    pure (Py.split " " r.2)).

(** [Process.get_nice]. *)
Definition get_nice : Process -> unit -> M W Z :=
  wrap_exceptions (fun self _ =>
    try_except_EnvironmentError (getpriority os (pid self))
      (fun err =>
         _ <- (if bool_decide (err ∈ [ENOENT; ESRCH]) then
                 alive <- pid_exists os (pid self) ;
                 if (alive : bool) then
                   raise (AccessDenied (pid self) (_process_name self))
                 else pure tt
               else pure tt) ;
         raise (EnvironmentError err))
      pure).

(** [Process.set_proc_nice]. *)
Definition set_proc_nice : Process -> Z -> M W unit :=
  wrap_exceptions (fun self value =>
    if bool_decide (pid self ∈ [2; 3]) then
      raise (AccessDenied (pid self) (_process_name self))
    else setpriority os (pid self) value).

(** The body of the loop of [get_threads]; the loop's variables are
    [(ret, hit_enoent)]. *)
Definition get_threads_step (self : Process) (tid : string)
    (vars : list (thread float) * bool) : M W (list (thread float) * bool) :=
  let '(ret, hit_enoent) := vars in
  tid <- int tid ;
  try_except_EnvironmentError (query_process_thread os (pid self) tid)
    (fun err =>
       if bool_decide (err = ENOENT) then pure (ret, true)
       else raise (EnvironmentError err))
    (fun '(utime, stime) =>
       let nt := nt_proc_thread tid utime stime in
       pure (ret ++ [nt], hit_enoent)).

(** [Process.get_threads]. *)
Definition get_threads : Process -> unit -> M W (list (thread float)) :=
  wrap_exceptions (fun self _ =>
    tids <- os_listdir os ("/proc/" +:+ Py.str (pid self) +:+ "/lwp") ;
    '(ret, hit_enoent) <- for_ tids (get_threads_step self) ([], false) ;
    _ <- (if (hit_enoent : bool) then
            os_stat os ("/proc/" +:+ Py.str (pid self))
          else pure tt) ;
    pure ret).

(** The body of the loop of [get_open_files]; the loop's variables are
    [(retlist, hit_enoent)]. *)
Definition get_open_files_step (self : Process) (pathdir fd : string)
    (vars : list openfile * bool) : M W (list openfile * bool) :=
  let '(retlist, hit_enoent) := vars in
  let path := Py.path_join pathdir fd in
  islink <- os_path_islink os path ;
  if (islink : bool) then
    try_except_EnvironmentError (os_readlink os path)
      (fun err =>
         if bool_decide (err = ENOENT) then pure (retlist, true)
         else raise (EnvironmentError err))
      (fun file =>
         isfile <- isfile_strict os file ;
         if (isfile : bool) then
           n <- int fd ;
           pure (retlist ++ [nt_proc_file file n], hit_enoent)
         else pure (retlist, hit_enoent))
  else pure (retlist, hit_enoent).

(** [Process.get_open_files]. *)
Definition get_open_files : Process -> unit -> M W (list openfile) :=
  wrap_exceptions (fun self _ =>
    let pathdir := "/proc/" +:+ Py.str (pid self) +:+ "/path" in
    fds <- os_listdir os ("/proc/" +:+ Py.str (pid self) +:+ "/fd") ;
    '(retlist, hit_enoent) <-
      for_ fds (get_open_files_step self pathdir) ([], false) ;
    _ <- (if (hit_enoent : bool) then
            os_stat os ("/proc/" +:+ Py.str (pid self))
          else pure tt) ;
    pure retlist).

(** [toaddr], local to [get_memory_maps]. *)
Definition toaddr (start end_ : Z) : string :=
  Py.strip_chars ["L"%char] (Py.drop 2 (Py.hex start))
  +:+ "-" +:+ Py.strip_chars ["L"%char] (Py.drop 2 (Py.hex end_)).

(** The body of the loop of [get_memory_maps]; the loop's variables are
    [(retlist, hit_enoent)]. *)
Definition get_memory_maps_step (self : Process) (item : raw_mmap)
    (vars : list mmap_ext * bool) : M W (list mmap_ext * bool) :=
  let '(retlist, hit_enoent) := vars in
  let '(addr, addrsize, perm, name, rss, anon, locked) := item in
  let addr := toaddr addr addrsize in
  let link := "/proc/" +:+ Py.str (pid self) +:+ "/path/" +:+ name in
  '(name, hit_enoent) <-
    (if negb (Py.startswith "[" name) then
       try_except_EnvironmentError (os_readlink os link)
         (fun err =>
            if bool_decide (err = ENOENT) then pure (link, true)
            else raise (EnvironmentError err))
         (fun target => pure (target, hit_enoent))
     else pure (name, hit_enoent)) ;
  pure (retlist ++ [(addr, perm, name, rss, anon, locked)], hit_enoent).

(** [Process.get_memory_maps]. *)
Definition get_memory_maps : Process -> unit -> M W (list mmap_ext) :=
  wrap_exceptions (fun self _ =>
    rawlist <- get_proc_memory_maps os (pid self) ;
    '(retlist, hit_enoent) <-
      for_ rawlist (get_memory_maps_step self) ([], false) ;
    _ <- (if (hit_enoent : bool) then
            os_stat os ("/proc/" +:+ Py.str (pid self))
          else pure tt) ;
    pure retlist).

(** [enumerate(lines)]. *)
Definition enumerate {A} (l : list A) : list (Z * A) :=
  zip (Z.of_nat <$> seq 0 (length l)) l.

Definition newline : string := String (ascii_of_nat 10) EmptyString.

(** The body of the loop of [_get_unix_sockets]; [conns] collects what
    the generator yields. *)
Definition _get_unix_sockets_step (lines : list string) (entry : Z * string)
    (conns : list connection) : M W (list connection) :=
  let '(i, line) := entry in
  let line := Py.lstrip line in
  if Py.startswith "sockname: AF_UNIX" line then
    path <- getitem (Py.split_max " " 2 line) 2 ;
    type <- getitem lines (i - 2) ;
    let type := Py.strip type in
    let type :=
      if String.eqb type "SOCK_STREAM" then SOCK_STREAM pf
      else if String.eqb type "SOCK_DGRAM" then SOCK_DGRAM pf
      else -1 in
    pure (conns ++ [nt_proc_conn (-1) (AF_UNIX pf) type
                      (addr_text path) (addr_text "") CONN_NONE])
  else pure conns.

(** [Process._get_unix_sockets]: the tuples the generator yields, each
    already packed into [nt_proc_conn] as its one caller does. *)
Definition _get_unix_sockets (self : Process) (pid_ : Z) : M W (list connection) :=
  let cmd := "pfiles " +:+ Py.str pid_ in
  '(returncode, stdout, stderr) <- pfiles os cmd ;
  _ <- (if negb (returncode =? 0) then
          if Py.contains "permission denied" (Py.lower stderr) then
            raise (AccessDenied (pid self) (_process_name self))
          else if Py.contains "no such process" (Py.lower stderr) then
            raise (NoSuchProcess (pid self) (_process_name self))
          else
            raise (RuntimeError
                     (Py.repr cmd +:+ " command error" +:+ newline +:+ stderr))
        else pure tt) ;
  let lines := Py.slice_from 2 (Py.split (ascii_of_nat 10) stdout) in
  for_ (enumerate lines) (_get_unix_sockets_step lines) [].

(** The body of the loop of [get_connections] over [rawlist]. *)
Definition get_connections_step (families types : list Z) (item : raw_conn)
    (ret : list connection) : M W (list connection) :=
  let '(fd, fam, type, laddr, raddr, status) := item in
  if negb (bool_decide (fam ∈ families)) then pure ret
  else if negb (bool_decide (type ∈ types)) then pure ret
  else
    match TCP_STATUSES pf !! status with
    | None => raise (KeyError status)
    | Some status =>
        let nt := nt_proc_conn fd fam type laddr raddr status in
        pure (ret ++ [nt])
    end.

(** [Process.get_connections]; [kind] defaults to ['inet']. *)
Definition get_connections : Process -> string -> M W (list connection) :=
  wrap_exceptions (fun self kind =>
    match conn_tmap pf !! kind with
    | None =>
        raise (ValueError
                 ("invalid " +:+ Py.repr kind
                  +:+ " kind argument; choose between "
                  +:+ Py.join ", " (Py.repr <$> (map_to_list (conn_tmap pf)).*1)))
    | Some (families, types) =>
        rawlist <- get_proc_connections os (pid self) families types ;
        _ <- (if bool_decide (rawlist = []) then
                os_stat os ("/proc/" +:+ Py.str (pid self))
              else pure tt) ;
        ret <- for_ rawlist (get_connections_step families types) [] ;
        if bool_decide (AF_UNIX pf ∈ families) then
          unix <- _get_unix_sockets self (pid self) ;
          pure (ret ++ unix)
        else pure ret
    end).

(** The names bound in the body of [class Process], with the two slots.
    An instance has no other attribute of its own: the class declares
    [__slots__], defines no [__getattr__], and derives from [object],
    whose attributes are all spelled [__x__]. *)
Definition Process_attributes : list string :=
  [ "__slots__"; "pid"; "_process_name"; "__init__";
    "get_name"; "get_exe"; "get_cmdline"; "get_create_time";
    "get_num_threads"; "get_nice"; "set_proc_nice"; "get_ppid";
    "get_uids"; "get_gids"; "get_cpu_times"; "get_terminal"; "get_cwd";
    "get_memory_info"; "get_ext_memory_info"; "get_status";
    "get_threads"; "get_open_files"; "_get_unix_sockets";
    "get_connections"; "nt_mmap_grouped"; "nt_mmap_ext";
    "get_memory_maps"; "get_num_fds"; "get_num_ctx_switches";
    "process_wait" ].

(** [Process.get_exe].  The call [self.get_proc_cmdline()] resolves the
    name on the instance when it runs; an unbound name is an
    AttributeError.  Were the name bound, it would be the command-line
    reader the comment above the call speaks of. *)
Definition get_exe : Process -> unit -> M W string :=
  wrap_exceptions (fun self _ =>
    _ <- (if bool_decide ("get_proc_cmdline" ∈ Process_attributes) then
            _ <- get_cmdline self tt ; pure tt
          else raise (AttributeError "get_proc_cmdline")) ;
    pure "").

End Accessors.

(** ** Vocabulary of the statements *)

Definition raw_family (item : raw_conn) : Z := item.1.1.1.1.2.
Definition raw_type (item : raw_conn) : Z := item.1.1.1.2.
Definition raw_status (item : raw_conn) : Z := item.2.

(** The items the loop of [get_connections] does not pass over. *)
Definition selected (families types : list Z) (item : raw_conn) : bool :=
  bool_decide (raw_family item ∈ families) && bool_decide (raw_type item ∈ types).

(** [c] is [item] with its status looked up in [TCP_STATUSES]. *)
Definition mapped (pf : Platform) (item : raw_conn) (c : connection) : Prop :=
  let '(fd, fam, type, laddr, raddr, status) := item in
  exists st, TCP_STATUSES pf !! status = Some st /\
             c = nt_proc_conn fd fam type laddr raddr st.

Definition mmap_name (item : raw_mmap) : string := item.1.1.1.2.

(** The link [get_memory_maps] reads for [item]. *)
Definition mmap_link (self : Process) (item : raw_mmap) : string :=
  "/proc/" +:+ Py.str (pid self) +:+ "/path/" +:+ mmap_name item.

(** The record [get_memory_maps] builds from [item] once its name is
    settled. *)
Definition mmap_entry (item : raw_mmap) (name : string) : mmap_ext :=
  let '(addr, addrsize, perm, _, rss, anon, locked) := item in
  (toaddr addr addrsize, perm, name, rss, anon, locked).

(** The outcome of a per-entry read: what it returns, or ENOENT. *)
Definition read_outcome {A} (o : option A) : result A :=
  match o with
  | Some a => Ok a
  | None => Raise (EnvironmentError errno.ENOENT)
  end.

(** The record of the thread listed as [name], if its times were read. *)
Definition thread_of {float : Type} (detail : Z -> option (float * float))
    (name : string) : option (thread float) :=
  match Py.int name with
  | Some tid =>
      match detail tid with
      | Some (utime, stime) => Some (nt_proc_thread tid utime stime)
      | None => None
      end
  | None => None
  end.

(** The record of the descriptor listed as [fd], if it is a link that
    was read and leads to a regular file. *)
Definition file_of (link : string -> bool) (target : string -> option string)
    (regular : string -> bool) (fd : string) : option openfile :=
  if link fd then
    match target fd with
    | Some file =>
        if regular file then
          match Py.int fd with
          | Some n => Some (nt_proc_file file n)
          | None => None
          end
        else None
    | None => None
    end
  else None.

(** The record of a mapping: a bracketed name is kept, another name is
    replaced by what its link leads to, or by the link itself when the
    link could not be read. *)
Definition mmap_of (self : Process) (target : string -> option string)
    (item : raw_mmap) : mmap_ext :=
  mmap_entry item
    (if Py.startswith "[" (mmap_name item) then mmap_name item
     else match target (mmap_name item) with
          | Some file => file
          | None => mmap_link self item
          end).

(** ** A simulated process table

    The concrete operating system of the examples.  Its world is the
    number of calls made so far: every primitive counts itself.
    Process 7 is alive; process 9 has terminated, though what was
    listed from it before can still be walked; priorities of the pids
    below 4 cannot be read. *)

Module Demo.

Definition tick {A} (r : result A) : M nat A := fun n => (r, S n).

Definition fails {A} (err : Z) : result A := Raise (EnvironmentError err).

Definition ends_with (suffix s : string) : bool :=
  String.eqb (Py.drop (String.length s - String.length suffix) s) suffix.

Definition a_out : raw_mmap := (134512640, 134545408, "r-x", "a.out", 32, 0, 0).
Definition stack : raw_mmap := (134500000, 134512640, "rw-", "[ stack ]", 8, 8, 0).

Definition listener : raw_conn :=
  (3, 2, 2, addr_inet "127.0.0.1" 22, addr_empty, -3).
Definition stray : raw_conn :=
  (4, 2, 2, addr_inet "127.0.0.1" 80, addr_inet "10.0.0.1" 4000, 99).

(** What [pfiles 5] prints. *)
Definition pfiles_5 : string :=
"5:      /usr/lib/demo
  Current rlimit: 256 file descriptors
   0: S_IFCHR mode:0666 dev:527,0 ino:12582920 uid:0 gid:3 rdev:13,2
      O_RDONLY
   4: S_IFSOCK mode:0666 dev:525,0 ino:36139 uid:0 gid:0 size:0
      O_RDWR
        SOCK_STREAM
        SO_SNDBUF(16384),SO_RCVBUF(5120)
        sockname: AF_UNIX /tmp/demo.sock
".

Definition os : OS nat Z := {|
  get_proc_name_and_args p :=
    tick (if p =? 7 then Ok ("init", "/sbin/init -r") else fails errno.ESRCH);
  query_process_thread p tid :=
    tick (if tid =? 2 then fails errno.ENOENT else Ok (10 * tid, tid));
  get_proc_memory_maps p := tick (Ok [a_out; stack]);
  get_proc_connections p families types :=
    tick (Ok (if p =? 7 then [listener]
              else if p =? 8 then [listener; stray]
              else []));
  getpriority p := tick (if p <? 4 then fails errno.ESRCH else Ok 0);
  setpriority p value := tick (Ok tt);
  pid_exists p := tick (Ok (negb (p =? 9)));
  os_listdir path := tick (Ok ["1"; "2"; "3"]);
  os_readlink path :=
    tick (if ends_with "/2" path || ends_with "/a.out" path
          then fails errno.ENOENT else Ok ("/var/log/" +:+ Py.drop 6 path));
  os_stat path :=
    tick (if String.eqb path "/proc/9" then fails errno.ENOENT else Ok tt);
  os_path_islink path := tick (Ok (negb (ends_with "/3" path)));
  isfile_strict file := tick (Ok true);
  pfiles cmd :=
    tick (Ok (if String.eqb cmd "pfiles 5" then (0, pfiles_5, "")
              else if String.eqb cmd "pfiles 9"
                   then (1, "", "pfiles: cannot examine 9: No such process")
                   else (0, "", "")))
|}.

(** SunOS values of the constants. *)
Definition platform : Platform := {|
  TCPS_ESTABLISHED := 0; TCPS_SYN_SENT := -2; TCPS_SYN_RCVD := -1;
  TCPS_FIN_WAIT_1 := 2; TCPS_FIN_WAIT_2 := 5; TCPS_TIME_WAIT := 6;
  TCPS_CLOSED := -6; TCPS_CLOSE_WAIT := 1; TCPS_LAST_ACK := 4;
  TCPS_LISTEN := -3; TCPS_CLOSING := 3; PSUTIL_CONN_NONE := 128;
  TCPS_IDLE := -5; TCPS_BOUND := -4;
  AF_UNIX := 1; SOCK_STREAM := 2; SOCK_DGRAM := 1;
  conn_tmap :=
    <["inet" := ([2; 26], [2; 1])]>
      (<["tcp4" := ([2], [2])]>
         (<["unix" := ([1], [2; 1])]> ∅))
|}.

End Demo.

(** ** The rest of the module

    The system-wide functions and the remaining accessors.  What they
    call outside the module, beyond [OS], is the record [Sys]. *)

(** Further built-ins. *)
Module PyText.




(** The word that starts at the head of [s], and the words after it. *)
Fixpoint words_from (s : string) : string * list string :=
  match s with
  | EmptyString => (EmptyString, [])
  | String c s' =>
      let '(word, later) := words_from s' in
      if Py.char_in c Py.whitespace then
        (EmptyString, match word with EmptyString => later | _ => word :: later end)
      else (String c word, later)
  end.

(** [s.split()]: the words between runs of white space. *)
Definition split (s : string) : list string :=
  let '(word, later) := words_from s in
  match word with EmptyString => later | _ => word :: later end.

(** [s.replace(old, new)] for a one-character [old]. *)
Fixpoint replace (old : ascii) (new : string) (s : string) : string :=
  match s with
  | EmptyString => EmptyString
  | String c s' =>
      if Ascii.eqb c old then new +:+ replace old new s'
      else String c (replace old new s')
  end.

(** [l[-2:]]: the last two items, or all of a shorter list. *)
Definition last2 {A} (l : list A) : list A := List.skipn (length l - 2) l.

End PyText.

(** An object as [get_terminal] compares them: an integer, or the
    function [wrap_exceptions] returns. *)
Inductive pyobj : Type :=
| PyInt (n : Z)
| PyFunction.

(** [a != b]: a function differs from every integer. *)
Definition py_ne (a b : pyobj) : bool :=
  match a, b with
  | PyInt x, PyInt y => negb (x =? y)
  | PyFunction, PyFunction => false
  | _, _ => true
  end.

(** The named tuples of [psutil._common] the system functions build,
    with their fields in the order the module passes them. *)
Record user (float : Type) : Type := nt_sys_user {
  user_name : string; user_terminal : string; user_host : string;
  user_started : float }.
Arguments nt_sys_user {float} _ _ _ _.
Arguments user_name {float} _.
Arguments user_terminal {float} _.
Arguments user_host {float} _.
Arguments user_started {float} _.

Record partition : Type := nt_sys_diskpart {
  part_device : string; part_mountpoint : string; part_fstype : string;
  part_opts : string }.

Record swap (float : Type) : Type := nt_sys_swap {
  swap_total : Z; swap_used : Z; swap_free : Z; swap_percent : float;
  swap_sin : Z; swap_sout : Z }.
Arguments nt_sys_swap {float} _ _ _ _ _ _.
Arguments swap_total {float} _.
Arguments swap_used {float} _.
Arguments swap_free {float} _.
Arguments swap_percent {float} _.
Arguments swap_sin {float} _.
Arguments swap_sout {float} _.

(** An item of [_psutil_sunos.get_users]:
    [(user, tty, hostname, tstamp, user_process)]. *)
Definition raw_user (float : Type) : Type := string * string * string * float * bool.

(** An item of [_psutil_sunos.get_disk_partitions]:
    [(device, mountpoint, fstype, opts)]. *)
Definition raw_partition : Type := string * string * string * string.

(** The items of the tuple of [get_proc_basic_info] that the accessors
    below read: the one at index 0 and the status code at index 6. *)
Record basic_info : Type := { info_0 : Z; info_6 : Z }.

(** What the rest of the module calls outside itself.
    - [get_proc_basic_info], [sunos_get_users],
      [sunos_get_disk_partitions], [get_swap_mem]: [_psutil_sunos];
    - [get_disk_usage]: [_psposix.get_disk_usage], of which the module
      reads the field [total];
    - [swap_l_k]: [subprocess.Popen(['swap', '-l', '-k'], ...)]
      followed by [communicate()], giving [(returncode, stdout)];
    - [usage_percent]: [psutil._common.usage_percent(used, total,
      _round=1)], a function of its arguments alone. *)
Record Sys (W float : Type) : Type := {
  get_proc_basic_info : Z -> M W basic_info;
  sunos_get_users : M W (list (raw_user float));
  sunos_get_disk_partitions : M W (list raw_partition);
  get_disk_usage : string -> M W Z;
  get_swap_mem : M W (Z * Z);
  swap_l_k : M W (Z * string);
  usage_percent : Z -> Z -> float
}.
Arguments get_proc_basic_info {W float} _ _ _.
Arguments sunos_get_users {W float} _ _.
Arguments sunos_get_disk_partitions {W float} _ _.
Arguments get_disk_usage {W float} _ _ _.
Arguments get_swap_mem {W float} _ _.
Arguments swap_l_k {W float} _ _.
Arguments usage_percent {W float} _ _ _.

(** The constants of [_psutil_sunos] and [psutil._common] that the rest
    of the module reads, and [PAGE_SIZE], which the module computes
    once when it is loaded. *)
Record Consts : Type := {
  PAGE_SIZE : Z;
  PRNODEV : Z;
  SSLEEP : Z; SRUN : Z; SZOMB : Z; SSTOP : Z; SIDL : Z; SONPROC : Z; SWAIT : Z;
  STATUS_SLEEPING : string; STATUS_RUNNING : string; STATUS_ZOMBIE : string;
  STATUS_STOPPED : string; STATUS_IDLE : string; STATUS_WAITING : string
}.

Definition PROC_STATUSES (cs : Consts) : gmap Z string :=
  dict [
    (SSLEEP cs, STATUS_SLEEPING cs);
    (SRUN cs, STATUS_RUNNING cs);
    (SZOMB cs, STATUS_ZOMBIE cs);
    (SSTOP cs, STATUS_STOPPED cs);
    (SIDL cs, STATUS_IDLE cs);
    (SONPROC cs, STATUS_RUNNING cs);
    (SWAIT cs, STATUS_WAITING cs)
  ].

(** The body of the loop of [get_users]; it calls nothing. *)
Definition get_users_step {float : Type} (retlist : list (user float))
    (item : raw_user float) : list (user float) :=
  let '(user, tty, hostname, tstamp, user_process) := item in
  if negb user_process then retlist
  else
    let hostname :=
      if bool_decide (hostname ∈ [":0.0"; ":0"]) then "localhost" else hostname in
    let nt := nt_sys_user user tty hostname tstamp in
    retlist ++ [nt].

Section System.
Context {W float : Type} (os : OS W float) (sys : Sys W float) (cs : Consts).

Import errno.

(** [for x in xs: body], where the body may [return] a value: [inr v]
    is that value, [inl s] the loop's variables when it goes on. *)
Fixpoint for_return {X S R} (xs : list X) (body : X -> S -> M W (S + R))
    (s : S) : M W (S + R) :=
  match xs with
  | [] => pure (inl s)
  | x :: xs' =>
      r <- body x s ;
      match r with
      | inl s' => for_return xs' body s'
      | inr v => pure (inr v)
      end
  end.



(** [get_users]. *)
Definition get_users : M W (list (user float)) :=
  rawlist <- sunos_get_users sys ;
  pure (fold_left get_users_step rawlist []).

(** The body of the loop of [disk_partitions]. *)
Definition disk_partitions_step (all : bool) (partition_ : raw_partition)
    (retlist : list partition) : M W (list partition) :=
  let '(device, mountpoint, fstype, opts) := partition_ in
  let device := if String.eqb device "none" then "" else device in
  skip <- (if negb all then
             total <- get_disk_usage sys mountpoint ;
             pure (total =? 0)
           else pure false) ;
  if (skip : bool) then pure retlist
  else
    let ntuple := nt_sys_diskpart device mountpoint fstype opts in
    pure (retlist ++ [ntuple]).

(** [disk_partitions]; [all] defaults to [False]. *)
Definition disk_partitions (all : bool) : M W (list partition) :=
  partitions <- sunos_get_disk_partitions sys ;
  for_ partitions (disk_partitions_step all) [].

(** The body of the loop of [swap_memory]; the loop's variables are
    [(total, free)]. *)
Definition swap_memory_step (line : string) (vars : Z * Z) : M W (Z * Z) :=
  let '(total, free) := vars in
  let line := PyText.split line in
  match PyText.last2 line with
  | [t; f] =>
      let t := PyText.replace "K" "" t in
      let f := PyText.replace "K" "" f in
      t <- int t ;
      let total := total + t * 1024 in
      f <- int f ;
      let free := free + f * 1024 in
      pure (total, free)
  | [] => raise (ValueError "need more than 0 values to unpack")
  | _ => raise (ValueError "need more than 1 value to unpack")
  end.

(** [swap_memory]. *)
Definition swap_memory : M W (swap float) :=
  '(sin, sout) <- get_swap_mem sys ;
  '(returncode, stdout) <- swap_l_k sys ;
  _ <- (if negb (returncode =? 0) then
          raise (RuntimeError
                   ("'swap -l -k' failed (retcode=" +:+ Py.str returncode +:+ ")"))
        else pure tt) ;
  let lines := Py.slice_from 1 (Py.split (ascii_of_nat 10) (Py.strip stdout)) in
  _ <- (if bool_decide (lines = []) then
          raise (RuntimeError "no swap device(s) configured")
        else pure tt) ;
  '(total, free) <- for_ lines swap_memory_step (0, 0) ;
  let used := total - free in
  let percent := usage_percent sys used total in
  pure (nt_sys_swap total used free percent
          (sin * PAGE_SIZE cs) (sout * PAGE_SIZE cs)).

(** [Process.get_cwd]; [None] is Python's [None]. *)
Definition get_cwd : Process -> unit -> M W (option string) :=
  wrap_exceptions (fun self _ =>
    try_except_EnvironmentError
      (os_readlink os ("/proc/" +:+ Py.str (pid self) +:+ "/path/cwd"))
      (fun err =>
         if bool_decide (err = ENOENT) then
           _ <- os_stat os ("/proc/" +:+ Py.str (pid self)) ;
           pure None
         else raise (EnvironmentError err))
      (fun link => pure (Some link))).

(** The body of the loop of [get_terminal]: the loop's variable is
    [hit_enoent], and a link that is read is returned at once. *)
Definition get_terminal_step (self : Process) (x : Z) (hit_enoent : bool)
    : M W (bool + string) :=
  try_except_EnvironmentError
    (os_readlink os
       ("/proc/" +:+ Py.str (pid self) +:+ "/path/" +:+ Py.str x))
    (fun err =>
       if bool_decide (err = ENOENT) then pure (inl true)
       else raise (EnvironmentError err))
    (fun link => pure (inr link)).

(** [Process.get_terminal].  [tty] is what [wrap_exceptions] returns for
    the integer it is handed, a function that is never called.  A call
    that runs to its end returns [None]. *)
Definition get_terminal : Process -> unit -> M W (option string) :=
  wrap_exceptions (fun self _ =>
    let hit_enoent := false in
    info <- get_proc_basic_info sys (pid self) ;
    let tty := PyFunction in
    r <- (if py_ne tty (PyInt (PRNODEV cs)) then
            for_return [0; 1; 2; 255] (get_terminal_step self) hit_enoent
          else pure (inl hit_enoent)) ;
    match r with
    | inr link => pure (Some link)
    | inl hit_enoent =>
        _ <- (if (hit_enoent : bool) then
                os_stat os ("/proc/" +:+ Py.str (pid self))
              else pure tt) ;
        pure None
    end).

(** [Process.get_status]. *)
Definition get_status : Process -> unit -> M W string :=
  wrap_exceptions (fun self _ =>
    info <- get_proc_basic_info sys (pid self) ;
    let code := info_6 info in
    pure (default "?" (PROC_STATUSES cs !! code))).

(** [Process.get_num_fds]. *)
Definition get_num_fds : Process -> unit -> M W Z :=
  wrap_exceptions (fun self _ =>
    fds <- os_listdir os ("/proc/" +:+ Py.str (pid self) +:+ "/fd") ;
    pure (Z.of_nat (length fds))).

End System.

(** What every record made from the output of [pfiles] looks like. *)
Definition unix_shaped (pf : Platform) (c : connection) : Prop :=
  conn_fd c = -1 /\
  conn_family c = AF_UNIX pf /\
  conn_type c ∈ [SOCK_STREAM pf; SOCK_DGRAM pf; -1] /\
  (exists path, conn_laddr c = addr_text path) /\
  conn_raddr c = addr_text "" /\
  conn_status_of c = CONN_NONE.

(** The record [get_users] makes of a raw item it keeps. *)
Definition user_of {float : Type} (item : raw_user float) : user float :=
  let '(user, tty, hostname, tstamp, _) := item in
  nt_sys_user user tty
    (if bool_decide (hostname ∈ [":0.0"; ":0"]) then "localhost" else hostname)
    tstamp.

Definition user_process {float : Type} (item : raw_user float) : bool := item.2.

(** The record [disk_partitions] makes of a raw item it keeps. *)
Definition partition_of (item : raw_partition) : partition :=
  let '(device, mountpoint, fstype, opts) := item in
  nt_sys_diskpart (if String.eqb device "none" then "" else device)
    mountpoint fstype opts.

(** The number a hexadecimal numeral stands for. *)
Definition hex_value (s : string) : option Z :=
  (fun d => Z.of_N (N.of_hex_uint d))
    <$> HexadecimalString.NilZero.uint_of_string s.

(** The items of the display of [TCP_STATUSES], in its order. *)
Definition TCP_STATUSES_items (pf : Platform) : list (Z * conn_status) :=
  [ (TCPS_ESTABLISHED pf, CONN_ESTABLISHED);
    (TCPS_SYN_SENT pf, CONN_SYN_SENT);
    (TCPS_SYN_RCVD pf, CONN_SYN_RECV);
    (TCPS_FIN_WAIT_1 pf, CONN_FIN_WAIT1);
    (TCPS_FIN_WAIT_2 pf, CONN_FIN_WAIT2);
    (TCPS_TIME_WAIT pf, CONN_TIME_WAIT);
    (TCPS_CLOSED pf, CONN_CLOSE);
    (TCPS_CLOSE_WAIT pf, CONN_CLOSE_WAIT);
    (TCPS_LAST_ACK pf, CONN_LAST_ACK);
    (TCPS_LISTEN pf, CONN_LISTEN);
    (TCPS_CLOSING pf, CONN_CLOSING);
    (PSUTIL_CONN_NONE pf, CONN_NONE);
    (TCPS_IDLE pf, CONN_IDLE);
    (TCPS_BOUND pf, CONN_BOUND) ].

(** ** A simulated system

    The concrete system of the further examples, over the same world as
    [Demo].  On it the working directory and the descriptors 0 and 1 of
    every process are links that cannot be read, and the priority of
    process 1 may not be read. *)

Module DemoSys.

Definition os : OS nat Z := {|
  get_proc_name_and_args := get_proc_name_and_args Demo.os;
  query_process_thread := query_process_thread Demo.os;
  get_proc_memory_maps := get_proc_memory_maps Demo.os;
  get_proc_connections := get_proc_connections Demo.os;
  getpriority p :=
    Demo.tick (if p =? 1 then Demo.fails errno.EPERM else Ok 0);
  setpriority := setpriority Demo.os;
  pid_exists := pid_exists Demo.os;
  os_listdir path :=
    Demo.tick (Ok (if String.eqb path "/proc" then ["0"; "1"; "self"; "7"; "1234"]
                   else ["1"; "2"; "3"]));
  os_readlink path :=
    Demo.tick (if Demo.ends_with "/cwd" path || Demo.ends_with "/0" path
                  || Demo.ends_with "/1" path
               then Demo.fails errno.ENOENT
               else Ok ("/dev/pts/" +:+ Py.drop 13 path));
  os_stat := os_stat Demo.os;
  os_path_islink := os_path_islink Demo.os;
  isfile_strict := isfile_strict Demo.os;
  pfiles cmd :=
    Demo.tick (Ok (if String.eqb cmd "pfiles 1"
                   then (1, "", "pfiles: Permission denied; no such process")
                   else (0, "", "")))
|}.

(** What [swap -l -k] prints. *)
Definition swap_l_k_out : string :=
"swapfile             dev    swaplo   blocks     free
/dev/zvol/dsk/rpool/swap 303,1        8K  2097144K  2097144K
/dev/dsk/c0t0d0s1   118,1         8K   524280K   500000K
".

Definition sys : Sys nat Z := {|
  get_proc_basic_info p :=
    Demo.tick (Ok {| info_0 := -1; info_6 := if p =? 7 then 6 else 42 |});
  sunos_get_users :=
    Demo.tick (Ok [("root", "console", ":0", 100, true);
                   ("system boot", "", "", 50, false);
                   ("ann", "pts/1", "10.0.0.5", 200, true)]);
  sunos_get_disk_partitions :=
    Demo.tick (Ok [("rpool/ROOT", "/", "zfs", "rw");
                   ("none", "/proc", "proc", "rw");
                   ("swap", "/tmp", "tmpfs", "rw")]);
  get_disk_usage mountpoint :=
    Demo.tick (Ok (if String.eqb mountpoint "/proc" then 0 else 4096));
  get_swap_mem := Demo.tick (Ok (3, 5));
  swap_l_k := Demo.tick (Ok (0, swap_l_k_out));
  usage_percent used total := if total =? 0 then 0 else used * 100 / total
|}.

Definition consts : Consts := {|
  PAGE_SIZE := 4096;
  PRNODEV := -1;
  SSLEEP := 1; SRUN := 2; SZOMB := 3; SSTOP := 4; SIDL := 5; SONPROC := 6;
  SWAIT := 7;
  STATUS_SLEEPING := "sleeping"; STATUS_RUNNING := "running";
  STATUS_ZOMBIE := "zombie"; STATUS_STOPPED := "stopped";
  STATUS_IDLE := "idle"; STATUS_WAITING := "waiting"
|}.

End DemoSys.

(** ** The model at work *)

Example hex_of_address : Py.hex 134512640 = "0x8048000".
Proof. reflexivity. Qed.

Example toaddr_of_range : toaddr 134512640 134545408 = "8048000-8050000".
Proof. reflexivity. Qed.

Example split_sockname :
  Py.split_max " " 2 "sockname: AF_UNIX /tmp/a b" = ["sockname:"; "AF_UNIX"; "/tmp/a b"].
Proof. reflexivity. Qed.

Example index_from_the_end :
  Py.index ["a"; "b"; "c"] (-2) = Some "b" /\ Py.index ["a"] (-2) = None.
Proof. split; reflexivity. Qed.

Example int_of_names :
  Py.int "12" = Some 12 /\ Py.int " +7 " = Some 7 /\ Py.int "self" = None.
Proof. repeat split. Qed.

Example path_join_fd : Py.path_join "/proc/7/path" "3" = "/proc/7/path/3".
Proof. reflexivity. Qed.

Example statuses_of_the_platform :
  TCP_STATUSES Demo.platform !! (-3) = Some CONN_LISTEN /\
  TCP_STATUSES Demo.platform !! 128 = Some CONN_NONE /\
  TCP_STATUSES Demo.platform !! 99 = None.
Proof. repeat split. Qed.

Example get_connections_inet :
  get_connections Demo.os Demo.platform (__init__ 7) "inet" 0%nat
  = (Ok [nt_proc_conn 3 2 2 (addr_inet "127.0.0.1" 22) addr_empty CONN_LISTEN],
     1%nat).
Proof. vm_compute. reflexivity. Qed.

Example get_connections_unix :
  get_connections Demo.os Demo.platform (__init__ 5) "unix" 0%nat
  = (Ok [nt_proc_conn (-1) 1 2 (addr_text "/tmp/demo.sock") (addr_text "")
           CONN_NONE],
     3%nat).
Proof. vm_compute. reflexivity. Qed.

Example get_connections_unix_gone :
  get_connections Demo.os Demo.platform (__init__ 9) "unix" 0%nat
  = (Raise (NoSuchProcess 9 None), 2%nat).
Proof. vm_compute. reflexivity. Qed.

Example get_nice_readable : get_nice Demo.os (__init__ 7) tt 0%nat = (Ok 0, 1%nat).
Proof. reflexivity. Qed.

Example set_proc_nice_writes :
  set_proc_nice Demo.os (__init__ 7) 5 0%nat = (Ok tt, 1%nat).
Proof. reflexivity. Qed.

(** Membership in a list written out. *)
Ltac in_list := rewrite ?elem_of_cons, ?elem_of_nil; tauto.

(** ** Running computations *)

Section Run.
Context {W : Type}.

Lemma run_fst {A} (m : M W A) (w : W) (r : result A) :
  (m w).1 = r -> exists w', m w = (r, w').
Proof. destruct (m w) as [r' w']; simpl; intros ->; eauto. Qed.

Lemma bind_ok {A B} (m : M W A) (k : A -> M W B) w a w' :
  m w = (Ok a, w') -> bind m k w = k a w'.
Proof. unfold bind; intros ->; reflexivity. Qed.

Lemma bind_raise {A B} (m : M W A) (k : A -> M W B) w e w' :
  m w = (Raise e, w') -> bind m k w = (Raise e, w').
Proof. unfold bind; intros ->; reflexivity. Qed.

Lemma for_nil {X S} (body : X -> S -> M W S) s w :
  for_ [] body s w = (Ok s, w).
Proof. reflexivity. Qed.

Lemma for_cons {X S} (body : X -> S -> M W S) x xs s w :
  for_ (x :: xs) body s w =
    match body x s w with
    | (Ok s', w') => for_ xs body s' w'
    | (Raise e, w') => (Raise e, w')
    end.
Proof. reflexivity. Qed.

(** A property of the loop's variables that every turn keeps holds when
    the loop ends. *)
Lemma for_invariant {X S} (P : S -> Prop) (body : X -> S -> M W S) xs :
  (forall x s w s' w', P s -> body x s w = (Ok s', w') -> P s') ->
  forall s w s' w', P s -> for_ xs body s w = (Ok s', w') -> P s'.
Proof.
  intros Hstep. induction xs as [|x xs IH]; intros s w s' w' Hs Hrun.
  - rewrite for_nil in Hrun. congruence.
  - rewrite for_cons in Hrun.
    destruct (body x s w) as [[s1|e] w1] eqn:Hbody; [|discriminate].
    exact (IH _ _ _ _ (Hstep _ _ _ _ _ Hs Hbody) Hrun).
Qed.

(** What the wrapper makes of an outcome of the callable. *)
Lemma wrap_exceptions_run {Args A} (callable : Process -> Args -> M W A)
    self args w r w' :
  callable self args w = (r, w') ->
  wrap_exceptions callable self args w =
    match r with
    | Raise (EnvironmentError err) =>
        if bool_decide (err ∈ [errno.ENOENT; errno.ESRCH]) then
          (Raise (NoSuchProcess (pid self) (_process_name self)), w')
        else if bool_decide (err ∈ [errno.EPERM; errno.EACCES]) then
          (Raise (AccessDenied (pid self) (_process_name self)), w')
        else (Raise (EnvironmentError err), w')
    | _ => (r, w')
    end.
Proof.
  intros Hrun. unfold wrap_exceptions, try_except_EnvironmentError.
  rewrite Hrun. destruct r as [a|[err| | | | | | |]]; try reflexivity.
  repeat case_bool_decide; reflexivity.
Qed.

End Run.

(** ** The error classifier *)

(** C1.  Whatever callable [wrap_exceptions] wraps, and every accessor of
    the handle is [wrap_exceptions] of its body: a result is passed
    through unchanged; a low-level failure with errno ENOENT or ESRCH
    becomes NoSuchProcess with the handle's pid and cached name; one
    with errno EPERM or EACCES becomes AccessDenied with the same
    identity; every other exception, a low-level failure with another
    errno included, is raised again as it is. *)
Theorem wrap_exceptions_translates {W Args A : Type}
    (callable : Process -> Args -> M W A) (self : Process) (args : Args)
    (w w' : W) (r : result A)
    (Hrun : callable self args w = (r, w')) :
  (forall a, r = Ok a ->
     wrap_exceptions callable self args w = (Ok a, w')) /\
  (forall err, r = Raise (EnvironmentError err) ->
     err = errno.ENOENT \/ err = errno.ESRCH ->
     wrap_exceptions callable self args w =
       (Raise (NoSuchProcess (pid self) (_process_name self)), w')) /\
  (forall err, r = Raise (EnvironmentError err) ->
     err = errno.EPERM \/ err = errno.EACCES ->
     wrap_exceptions callable self args w =
       (Raise (AccessDenied (pid self) (_process_name self)), w')) /\
  (forall e, r = Raise e ->
     (forall err, e = EnvironmentError err ->
        err <> errno.ENOENT /\ err <> errno.ESRCH /\
        err <> errno.EPERM /\ err <> errno.EACCES) ->
     wrap_exceptions callable self args w = (Raise e, w')).
Proof.
  rewrite (wrap_exceptions_run _ _ _ _ _ _ Hrun).
  repeat split.
  - intros a ->. reflexivity.
  - intros err -> [-> | ->]; reflexivity.
  - intros err -> [-> | ->]; reflexivity.
  - intros e -> Hother. destruct e as [err| | | | | | |]; try reflexivity.
    destruct (Hother err eq_refl) as (H1 & H2 & H3 & H4).
    rewrite !bool_decide_eq_false_2; [reflexivity | |]; in_list.
Qed.

Lemma wrap_exceptions_translates_witness :
  wrap_exceptions (fun _ (_ : unit) => Demo.tick (A:=Z) (Demo.fails errno.ESRCH))
    {| pid := 7; _process_name := Some "init" |} tt 0%nat
  = (Raise (NoSuchProcess 7 (Some "init")), 1%nat).
Proof.
  refine (proj1 (proj2 (wrap_exceptions_translates
            (fun _ (_ : unit) => Demo.tick (A:=Z) (Demo.fails errno.ESRCH))
            {| pid := 7; _process_name := Some "init" |} tt 0%nat 1%nat
            (Demo.fails errno.ESRCH) _)) errno.ESRCH _ _).
  - reflexivity.
  - reflexivity.
  - right; reflexivity.
Defined.

(** ** Priority *)

(** C7.  On a handle whose pid is 2 or 3, setting the priority raises
    AccessDenied for every value, and the world is left as it was:
    whatever [setpriority] would do, it is not called. *)
Theorem set_proc_nice_low_pid {W float : Type} (os : OS W float)
    (self : Process) (value : Z) (w : W) :
  pid self = 2 \/ pid self = 3 ->
  set_proc_nice os self value w =
    (Raise (AccessDenied (pid self) (_process_name self)), w).
Proof.
  intros Hpid. unfold set_proc_nice.
  apply (wrap_exceptions_run _ self value w
           (Raise (AccessDenied (pid self) (_process_name self))) w).
  rewrite bool_decide_eq_true_2; [reflexivity|].
  in_list.
Qed.

Lemma set_proc_nice_low_pid_witness :
  set_proc_nice Demo.os (__init__ 3) 10 0%nat
  = (Raise (AccessDenied 3 None), 0%nat).
Proof.
  apply (set_proc_nice_low_pid Demo.os (__init__ 3) 10 0%nat).
  right; reflexivity.
Defined.

(** C8.  When reading the priority fails with ENOENT or ESRCH, the
    existence check decides: if it says the process is alive the call
    raises AccessDenied, and if it says the process is gone the failure
    goes on to the classifier, which raises NoSuchProcess. *)
Theorem get_nice_failure {W float : Type} (os : OS W float)
    (self : Process) (w w1 : W) (err : Z) :
  getpriority os (pid self) w = (Raise (EnvironmentError err), w1) ->
  err = errno.ENOENT \/ err = errno.ESRCH ->
  (forall w2, pid_exists os (pid self) w1 = (Ok true, w2) ->
     get_nice os self tt w =
       (Raise (AccessDenied (pid self) (_process_name self)), w2)) /\
  (forall w2, pid_exists os (pid self) w1 = (Ok false, w2) ->
     get_nice os self tt w =
       (Raise (NoSuchProcess (pid self) (_process_name self)), w2)).
Proof.
  intros Hprio Herr.
  assert (Hin : err ∈ [errno.ENOENT; errno.ESRCH])
    by in_list.
  split; intros w2 Halive; unfold get_nice.
  - apply (wrap_exceptions_run _ self tt w
             (Raise (AccessDenied (pid self) (_process_name self))) w2).
    unfold try_except_EnvironmentError. rewrite Hprio.
    rewrite (bool_decide_eq_true_2 _ Hin).
    unfold bind. rewrite Halive. reflexivity.
  - rewrite (wrap_exceptions_run _ self tt w
               (Raise (EnvironmentError err)) w2).
    + rewrite (bool_decide_eq_true_2 _ Hin). reflexivity.
    + unfold try_except_EnvironmentError. rewrite Hprio.
      rewrite (bool_decide_eq_true_2 _ Hin).
      unfold bind. rewrite Halive. reflexivity.
Qed.

Lemma get_nice_failure_witness :
  get_nice Demo.os (__init__ 2) tt 0%nat
  = (Raise (AccessDenied 2 None), 2%nat).
Proof.
  refine (proj1 (get_nice_failure Demo.os (__init__ 2) 0%nat 1%nat
                   errno.ESRCH _ _) 2%nat _).
  - reflexivity.
  - right; reflexivity.
  - reflexivity.
Defined.

(** ** Construction and the executable path *)

(** C10.  Building a handle is a total function of the pid alone: it
    takes no operating system and no world, stores the pid and leaves
    the cached name absent.  A pid that denotes no process is found out
    only by an accessor: when the first read of the process table fails
    with ENOENT or ESRCH, [get_name] raises NoSuchProcess. *)
Theorem init_stores_pid_only (p : Z) :
  pid (__init__ p) = p /\
  _process_name (__init__ p) = None /\
  forall (W float : Type) (os : OS W float) (w w' : W) (err : Z),
    get_proc_name_and_args os p w = (Raise (EnvironmentError err), w') ->
    err = errno.ENOENT \/ err = errno.ESRCH ->
    get_name os (__init__ p) tt w = (Raise (NoSuchProcess p None), w').
Proof.
  repeat split. intros W float os w w' err Hread Herr. unfold get_name.
  rewrite (wrap_exceptions_run _ (__init__ p) tt w
             (Raise (EnvironmentError err)) w').
  - rewrite bool_decide_eq_true_2; [reflexivity|].
    in_list.
  - simpl. apply bind_raise. exact Hread.
Qed.

Lemma init_stores_pid_only_witness :
  get_name Demo.os (__init__ 9) tt 0%nat = (Raise (NoSuchProcess 9 None), 1%nat).
Proof.
  refine (proj2 (proj2 (init_stores_pid_only 9)) nat Z Demo.os 0%nat 1%nat
            errno.ESRCH _ _).
  - reflexivity.
  - right; reflexivity.
Defined.

Lemma get_proc_cmdline_unbound :
  bool_decide ("get_proc_cmdline" ∈ Process_attributes) = false.
Proof. vm_compute. reflexivity. Qed.

(** [get_exe] never reads the command line: the name it calls is bound
    nowhere in the class. *)
Lemma get_exe_raises {W float : Type} (os : OS W float) (self : Process) (w : W) :
  get_exe os self tt w = (Raise (AttributeError "get_proc_cmdline"), w).
Proof.
  unfold get_exe.
  apply (wrap_exceptions_run _ self tt w
           (Raise (AttributeError "get_proc_cmdline")) w).
  rewrite get_proc_cmdline_unbound. reflexivity.
Qed.

(** C9.  On process 7 of the simulated table the command line can be
    read, yet [get_exe] raises AttributeError without a single call to
    the operating system, where the probe and the empty path were
    meant. *)
Theorem get_exe_attribute_error :
  get_cmdline Demo.os (__init__ 7) tt 0%nat = (Ok ["/sbin/init"; "-r"], 1%nat) /\
  get_exe Demo.os (__init__ 7) tt 0%nat
    = (Raise (AttributeError "get_proc_cmdline"), 0%nat).
Proof. split; [reflexivity | apply get_exe_raises]. Qed.

(** ** Connections *)

Section Connections.
Context {W float : Type} (os : OS W float) (pf : Platform).

Lemma wrap_exceptions_ok_inv {Args A} (callable : Process -> Args -> M W A)
    self args w a w' :
  wrap_exceptions callable self args w = (Ok a, w') ->
  callable self args w = (Ok a, w').
Proof.
  destruct (callable self args w) as [r w1] eqn:Hrun.
  rewrite (wrap_exceptions_run _ _ _ _ _ _ Hrun).
  destruct r as [a'|[err| | | | | | |]];
    repeat case_bool_decide; congruence.
Qed.

Lemma get_connections_step_eq families types item ret (w : W) :
  get_connections_step pf families types item ret w =
    if selected families types item then
      match TCP_STATUSES pf !! raw_status item with
      | Some st =>
          (Ok (ret ++ [nt_proc_conn item.1.1.1.1.1 (raw_family item)
                         (raw_type item) item.1.1.2 item.1.2 st]), w)
      | None => (Raise (KeyError (raw_status item)), w)
      end
    else (Ok ret, w).
Proof.
  destruct item as [[[[[fd fam] type] laddr] raddr] status].
  unfold get_connections_step, selected, raw_family, raw_type, raw_status; simpl.
  destruct (bool_decide (fam ∈ families)); [|reflexivity].
  destruct (bool_decide (type ∈ types)); [|reflexivity]. simpl.
  destruct (TCP_STATUSES pf !! status); reflexivity.
Qed.

(** The loop over [rawlist] calls nothing.  It either maps every
    selected item, or stops with KeyError at a selected item whose
    status the table lacks. *)
Lemma get_connections_loop families types (rawlist : list raw_conn) :
  forall (ret : list connection) (w : W),
    (exists inet,
        for_ rawlist (get_connections_step pf families types) ret w
          = (Ok (ret ++ inet), w) /\
        Forall2 (mapped pf) (List.filter (selected families types) rawlist) inet /\
        Forall (fun item => selected families types item = true ->
                            is_Some (TCP_STATUSES pf !! raw_status item)) rawlist)
    \/
    (exists item,
        for_ rawlist (get_connections_step pf families types) ret w
          = (Raise (KeyError (raw_status item)), w) /\
        item ∈ rawlist /\ selected families types item = true /\
        TCP_STATUSES pf !! raw_status item = None).
Proof.
  induction rawlist as [|item rest IH]; intros ret w.
  - left. exists []. rewrite app_nil_r. repeat split; constructor.
  - rewrite for_cons, get_connections_step_eq. simpl List.filter.
    destruct (selected families types item) eqn:Hsel.
    + destruct (TCP_STATUSES pf !! raw_status item) as [st|] eqn:Hst.
      * match goal with |- context [for_ rest _ ?r w] =>
          destruct (IH r w) as [(inet & Hrun & Hmap & Hall)
                               |(it & Hrun & Hin & Hsel' & Hnone)]
        end.
        -- left. eexists (_ :: inet).
           rewrite Hrun, <- app_assoc. repeat split; try reflexivity.
           ++ constructor; [|assumption].
              destruct item as [[[[[fd fam] type] laddr] raddr] status].
              exists st. split; [exact Hst | reflexivity].
           ++ constructor; [|assumption]. intros _. rewrite Hst. eauto.
        -- right. exists it. repeat split; try assumption.
           by apply list_elem_of_further.
      * right. exists item. repeat split; try assumption.
        apply list_elem_of_here.
    + destruct (IH ret w) as [(inet & Hrun & Hmap & Hall)
                             |(it & Hrun & Hin & Hsel' & Hnone)].
      * left. exists inet. repeat split; try assumption.
        constructor; [|assumption]. rewrite Hsel. discriminate.
      * right. exists it. repeat split; try assumption.
        by apply list_elem_of_further.
Qed.

(** C4.  A kind outside [conn_tmap] makes [get_connections] raise
    ValueError, which the wrapper lets through as it is, and leaves the
    world as it was: nothing has been enumerated, whatever the
    operating system would have answered. *)
Theorem get_connections_invalid_kind (self : Process) (kind : string) (w : W) :
  conn_tmap pf !! kind = None ->
  exists msg,
    get_connections os pf self kind w = (Raise (ValueError msg), w).
Proof.
  intros Hkind.
  unfold get_connections, wrap_exceptions, try_except_EnvironmentError.
  rewrite Hkind. eexists. reflexivity.
Qed.

(** C5.  With a valid kind and an empty raw list, [/proc/<pid>] is
    examined before anything is returned: if that fails with ENOENT the
    call raises NoSuchProcess; the call returns a list only if the
    examination succeeded; and when it succeeded and no unix sockets
    are asked for, the empty list is what the call returns. *)
Theorem get_connections_empty_rawlist (self : Process) (kind : string)
    (families types : list Z) (w w1 : W) :
  conn_tmap pf !! kind = Some (families, types) ->
  get_proc_connections os (pid self) families types w = (Ok [], w1) ->
  (forall w2,
     os_stat os ("/proc/" +:+ Py.str (pid self)) w1
       = (Raise (EnvironmentError errno.ENOENT), w2) ->
     get_connections os pf self kind w
       = (Raise (NoSuchProcess (pid self) (_process_name self)), w2)) /\
  (forall ret w',
     get_connections os pf self kind w = (Ok ret, w') ->
     exists w2, os_stat os ("/proc/" +:+ Py.str (pid self)) w1 = (Ok tt, w2)) /\
  (forall w2,
     os_stat os ("/proc/" +:+ Py.str (pid self)) w1 = (Ok tt, w2) ->
     AF_UNIX pf ∉ families ->
     get_connections os pf self kind w = (Ok [], w2)).
Proof.
  intros Hkind Hraw. repeat split.
  - intros w2 Hstat. unfold get_connections.
    rewrite (wrap_exceptions_run _ self kind w
               (Raise (EnvironmentError errno.ENOENT)) w2); [reflexivity|].
    rewrite Hkind. rewrite (bind_ok _ _ _ _ _ Hraw).
    apply bind_raise. exact Hstat.
  - intros ret w' Hret. unfold get_connections in Hret.
    apply wrap_exceptions_ok_inv in Hret. cbv beta in Hret.
    rewrite Hkind, (bind_ok _ _ _ _ _ Hraw) in Hret.
    rewrite bool_decide_eq_true_2 in Hret by reflexivity.
    destruct (os_stat os ("/proc/" +:+ Py.str (pid self)) w1)
      as [[[]|e] w2] eqn:Hstat.
    + eauto.
    + rewrite (bind_raise _ _ _ _ _ Hstat) in Hret. discriminate.
  - intros w2 Hstat Hunix. unfold get_connections.
    rewrite (wrap_exceptions_run _ self kind w (Ok []) w2); [reflexivity|].
    rewrite Hkind, (bind_ok _ _ _ _ _ Hraw).
    rewrite bool_decide_eq_true_2 by reflexivity.
    rewrite (bind_ok _ _ _ _ _ Hstat).
    rewrite (bind_ok _ _ w2 [] w2) by reflexivity.
    rewrite (bool_decide_eq_false_2 _ Hunix). reflexivity.
Qed.

(** C6.  With a valid kind and the raw list at hand: if the call
    returns, its list starts with the raw items of a selected family
    and type, in order, each with the status the table gives for its
    raw code, followed only by what [_get_unix_sockets] yields when the
    unix family is asked for; and if some selected
    item has a raw code the table lacks, the call raises KeyError on
    such a code, which the wrapper lets through, and returns nothing. *)
Theorem get_connections_status_table (self : Process) (kind : string)
    (families types : list Z) (rawlist : list raw_conn) (w w1 : W) :
  conn_tmap pf !! kind = Some (families, types) ->
  get_proc_connections os (pid self) families types w = (Ok rawlist, w1) ->
  (forall ret w',
     get_connections os pf self kind w = (Ok ret, w') ->
     exists inet unix,
       ret = inet ++ unix /\
       Forall2 (mapped pf) (List.filter (selected families types) rawlist) inet /\
       (AF_UNIX pf ∉ families -> unix = []) /\
       (AF_UNIX pf ∈ families ->
        exists w2, _get_unix_sockets os pf self (pid self) w2 = (Ok unix, w'))) /\
  (forall item,
     item ∈ rawlist ->
     selected families types item = true ->
     TCP_STATUSES pf !! raw_status item = None ->
     exists status,
       TCP_STATUSES pf !! status = None /\
       get_connections os pf self kind w = (Raise (KeyError status), w1)).
Proof.
  intros Hkind Hraw. split.
  - intros ret w' Hret. unfold get_connections in Hret.
    apply wrap_exceptions_ok_inv in Hret. cbv beta in Hret.
    rewrite Hkind, (bind_ok _ _ _ _ _ Hraw) in Hret.
    unfold bind at 1 in Hret.
    destruct ((if bool_decide (rawlist = [])
               then os_stat os ("/proc/" +:+ Py.str (pid self))
               else pure ()) w1) as [[[]|e] w2]; [|discriminate].
    unfold bind at 1 in Hret.
    destruct (get_connections_loop families types rawlist [] w2)
      as [(inet & Hrun & Hmap & _)|(it & Hrun & _)];
      rewrite Hrun in Hret; [|discriminate].
    simpl in Hret. case_bool_decide as Hunix.
    + unfold bind in Hret.
      destruct (_get_unix_sockets os pf self (pid self) w2) as [[unix|e] w3]
        eqn:Hunix_run; [|discriminate].
      injection Hret as <- <-. exists inet, unix.
      split; [reflexivity|]. split; [assumption|]. split.
      * intros Hno. contradiction.
      * intros _. exists w2. exact Hunix_run.
    + injection Hret as <- _. exists inet, []. rewrite app_nil_r.
      split; [reflexivity|]. split; [assumption|]. split.
      * reflexivity.
      * intros Hyes. contradiction.
  - intros item Hin Hsel Hnone.
    assert (Hne : rawlist <> []) by (intros ->; by apply elem_of_nil in Hin).
    destruct (get_connections_loop families types rawlist [] w1)
      as [(inet & Hrun & _ & Hall)|(it & Hrun & _ & _ & Hnone')].
    + rewrite Forall_forall in Hall. destruct (Hall item Hin Hsel) as [st Hst].
      congruence.
    + exists (raw_status it). split; [assumption|]. unfold get_connections.
      rewrite (wrap_exceptions_run _ self kind w
                 (Raise (KeyError (raw_status it))) w1); [reflexivity|].
      rewrite Hkind, (bind_ok _ _ _ _ _ Hraw).
      rewrite (bool_decide_eq_false_2 _ Hne).
      rewrite (bind_ok _ _ w1 () w1) by reflexivity.
      apply bind_raise. exact Hrun.
Qed.

End Connections.

Lemma get_connections_invalid_kind_witness :
  exists msg,
    get_connections Demo.os Demo.platform (__init__ 7) "bogus" 0%nat
      = (Raise (ValueError msg), 0%nat).
Proof.
  apply (get_connections_invalid_kind Demo.os Demo.platform (__init__ 7)
           "bogus" 0%nat).
  vm_compute. reflexivity.
Defined.

Lemma get_connections_empty_rawlist_witness :
  get_connections Demo.os Demo.platform (__init__ 9) "inet" 0%nat
    = (Raise (NoSuchProcess 9 None), 2%nat).
Proof.
  refine (proj1 (get_connections_empty_rawlist Demo.os Demo.platform
                   (__init__ 9) "inet" [2; 26] [2; 1] 0%nat 1%nat _ _) 2%nat _).
  - vm_compute. reflexivity.
  - reflexivity.
  - reflexivity.
Defined.

Lemma get_connections_status_table_witness :
  exists status,
    TCP_STATUSES Demo.platform !! status = None /\
    get_connections Demo.os Demo.platform (__init__ 8) "inet" 0%nat
      = (Raise (KeyError status), 1%nat).
Proof.
  refine (proj2 (get_connections_status_table Demo.os Demo.platform
                   (__init__ 8) "inet" [2; 26] [2; 1]
                   [Demo.listener; Demo.stray] 0%nat 1%nat _ _)
            Demo.stray _ _ _).
  - vm_compute. reflexivity.
  - reflexivity.
  - apply list_elem_of_further, list_elem_of_here.
  - vm_compute. reflexivity.
  - vm_compute. reflexivity.
Defined.

(** ** Enumerate, then verify *)

Section Enumerators.
Context {W float : Type} (os : OS W float) (self : Process).

Abbreviation proc_dir := ("/proc/" +:+ Py.str (pid self)).
Abbreviation lwp_dir := ("/proc/" +:+ Py.str (pid self) +:+ "/lwp").
Abbreviation fd_dir := ("/proc/" +:+ Py.str (pid self) +:+ "/fd").
Abbreviation path_dir := ("/proc/" +:+ Py.str (pid self) +:+ "/path").
Abbreviation enoent := (Raise (EnvironmentError errno.ENOENT)).

(** One turn of each loop: a read that returns adds a record, and a read
    that fails with ENOENT sets the flag and adds none (threads, open
    files) or adds the record with the unresolved link (memory maps). *)

Lemma get_threads_step_ok name tid utime stime ret hit_enoent (w w' : W) :
  Py.int name = Some tid ->
  query_process_thread os (pid self) tid w = (Ok (utime, stime), w') ->
  get_threads_step os self name (ret, hit_enoent) w
    = (Ok (ret ++ [nt_proc_thread tid utime stime], hit_enoent), w').
Proof.
  intros Hint Hread. unfold get_threads_step, int. rewrite Hint.
  unfold bind, pure, try_except_EnvironmentError. rewrite Hread. reflexivity.
Qed.

Lemma get_threads_step_enoent name tid ret hit_enoent (w w' : W) :
  Py.int name = Some tid ->
  query_process_thread os (pid self) tid w = (enoent, w') ->
  get_threads_step os self name (ret, hit_enoent) w = (Ok (ret, true), w').
Proof.
  intros Hint Hread. unfold get_threads_step, int. rewrite Hint.
  unfold bind, pure, try_except_EnvironmentError. rewrite Hread. reflexivity.
Qed.

Lemma get_open_files_step_not_link pathdir fd retlist hit_enoent (w w' : W) :
  os_path_islink os (Py.path_join pathdir fd) w = (Ok false, w') ->
  get_open_files_step os self pathdir fd (retlist, hit_enoent) w
    = (Ok (retlist, hit_enoent), w').
Proof.
  intros Hlink. unfold get_open_files_step.
  rewrite (bind_ok _ _ _ _ _ Hlink). reflexivity.
Qed.

Lemma get_open_files_step_enoent pathdir fd retlist hit_enoent (w w1 w' : W) :
  os_path_islink os (Py.path_join pathdir fd) w = (Ok true, w1) ->
  os_readlink os (Py.path_join pathdir fd) w1 = (enoent, w') ->
  get_open_files_step os self pathdir fd (retlist, hit_enoent) w
    = (Ok (retlist, true), w').
Proof.
  intros Hlink Hread. unfold get_open_files_step.
  rewrite (bind_ok _ _ _ _ _ Hlink).
  unfold try_except_EnvironmentError. rewrite Hread. reflexivity.
Qed.

Lemma get_open_files_step_ok pathdir fd file isfile retlist hit_enoent
    (w w1 w2 w' : W) :
  os_path_islink os (Py.path_join pathdir fd) w = (Ok true, w1) ->
  os_readlink os (Py.path_join pathdir fd) w1 = (Ok file, w2) ->
  isfile_strict os file w2 = (Ok isfile, w') ->
  get_open_files_step os self pathdir fd (retlist, hit_enoent) w
    = if isfile then
        match Py.int fd with
        | Some n => (Ok (retlist ++ [nt_proc_file file n], hit_enoent), w')
        | None =>
            (Raise (ValueError
                      ("invalid literal for int() with base 10: " +:+ Py.repr fd)),
             w')
        end
      else (Ok (retlist, hit_enoent), w').
Proof.
  intros Hlink Hread Hfile. unfold get_open_files_step.
  rewrite (bind_ok _ _ _ _ _ Hlink).
  unfold try_except_EnvironmentError. rewrite Hread.
  rewrite (bind_ok _ _ _ _ _ Hfile).
  destruct isfile; [|reflexivity].
  unfold int. destruct (Py.int fd); reflexivity.
Qed.

Lemma get_memory_maps_step_bracket item retlist hit_enoent (w : W) :
  Py.startswith "[" (mmap_name item) = true ->
  get_memory_maps_step os self item (retlist, hit_enoent) w
    = (Ok (retlist ++ [mmap_entry item (mmap_name item)], hit_enoent), w).
Proof.
  destruct item as [[[[[[addr addrsize] perm] name] rss] anon] locked].
  unfold mmap_name; cbn [fst snd]. intros Hname.
  unfold get_memory_maps_step. rewrite Hname. reflexivity.
Qed.

Lemma get_memory_maps_step_ok item target retlist hit_enoent (w w' : W) :
  Py.startswith "[" (mmap_name item) = false ->
  os_readlink os (mmap_link self item) w = (Ok target, w') ->
  get_memory_maps_step os self item (retlist, hit_enoent) w
    = (Ok (retlist ++ [mmap_entry item target], hit_enoent), w').
Proof.
  destruct item as [[[[[[addr addrsize] perm] name] rss] anon] locked].
  unfold mmap_link, mmap_name; cbn [fst snd]. intros Hname Hread.
  unfold get_memory_maps_step. rewrite Hname. cbn [negb].
  unfold bind, try_except_EnvironmentError. rewrite Hread. reflexivity.
Qed.

Lemma get_memory_maps_step_enoent item retlist hit_enoent (w w' : W) :
  Py.startswith "[" (mmap_name item) = false ->
  os_readlink os (mmap_link self item) w = (enoent, w') ->
  get_memory_maps_step os self item (retlist, hit_enoent) w
    = (Ok (retlist ++ [mmap_entry item (mmap_link self item)], true), w').
Proof.
  destruct item as [[[[[[addr addrsize] perm] name] rss] anon] locked].
  unfold mmap_link, mmap_name; cbn [fst snd]. intros Hname Hread.
  unfold get_memory_maps_step. rewrite Hname. cbn [negb].
  unfold bind, try_except_EnvironmentError. rewrite Hread. reflexivity.
Qed.

Lemma get_memory_maps_step_raises item e retlist hit_enoent (w w' : W) :
  Py.startswith "[" (mmap_name item) = false ->
  os_readlink os (mmap_link self item) w = (Raise e, w') ->
  e <> EnvironmentError errno.ENOENT ->
  get_memory_maps_step os self item (retlist, hit_enoent) w = (Raise e, w').
Proof.
  destruct item as [[[[[[addr addrsize] perm] name] rss] anon] locked].
  unfold mmap_link, mmap_name; cbn [fst snd]. intros Hname Hread Hne.
  unfold get_memory_maps_step. rewrite Hname. cbn [negb].
  unfold bind, try_except_EnvironmentError. rewrite Hread.
  destruct e as [err| | | | | | |]; try reflexivity.
  rewrite bool_decide_eq_false_2 by congruence. reflexivity.
Qed.

Lemma get_threads_loop detail (names : list string) :
  (forall name, name ∈ names ->
     exists tid, Py.int name = Some tid /\
       forall w, (query_process_thread os (pid self) tid w).1
                 = read_outcome (detail tid)) ->
  forall ret hit_enoent (w : W),
  exists hit_enoent' w',
    for_ names (get_threads_step os self) (ret, hit_enoent) w
      = (Ok (ret ++ omap (thread_of detail) names, hit_enoent'), w').
Proof.
  induction names as [|name rest IH]; intros Hreads ret hit w.
  - exists hit, w. rewrite for_nil, app_nil_r. reflexivity.
  - destruct (Hreads name (list_elem_of_here _ _)) as (tid & Hint & Hread).
    destruct (run_fst _ _ _ (Hread w)) as [w1 Hrun].
    assert (Hrest : forall name', name' ∈ rest ->
              exists tid', Py.int name' = Some tid' /\
                forall w, (query_process_thread os (pid self) tid' w).1
                          = read_outcome (detail tid'))
      by (intros name' Hin; apply Hreads, list_elem_of_further, Hin).
    rewrite for_cons. cbn [omap list_omap]. unfold thread_of at 1. rewrite Hint.
    destruct (detail tid) as [[utime stime]|]; cbn [read_outcome] in Hrun.
    + rewrite (get_threads_step_ok _ _ _ _ _ _ _ _ Hint Hrun).
      destruct (IH Hrest (ret ++ [nt_proc_thread tid utime stime]) hit w1)
        as (hit' & w' & Hloop).
      exists hit', w'. rewrite Hloop, <- app_assoc. reflexivity.
    + rewrite (get_threads_step_enoent _ _ _ _ _ _ Hint Hrun).
      apply (IH Hrest).
Qed.

Lemma get_open_files_loop link target regular (fds : list string) :
  (forall fd, fd ∈ fds ->
     is_Some (Py.int fd) /\
     (forall w, (os_path_islink os (Py.path_join path_dir fd) w).1 = Ok (link fd)) /\
     (forall w, (os_readlink os (Py.path_join path_dir fd) w).1
                = read_outcome (target fd)) /\
     (forall file, target fd = Some file ->
        forall w, (isfile_strict os file w).1 = Ok (regular file))) ->
  forall retlist hit_enoent (w : W),
  exists hit_enoent' w',
    for_ fds (get_open_files_step os self path_dir) (retlist, hit_enoent) w
      = (Ok (retlist ++ omap (file_of link target regular) fds, hit_enoent'), w').
Proof.
  induction fds as [|fd rest IH]; intros Hreads retlist hit w.
  - exists hit, w. rewrite for_nil, app_nil_r. reflexivity.
  - destruct (Hreads fd (list_elem_of_here _ _))
      as ([n Hint] & Hlink & Hread & Hfile).
    assert (Hrest : forall fd', fd' ∈ rest ->
              is_Some (Py.int fd') /\
              (forall w, (os_path_islink os (Py.path_join path_dir fd') w).1
                         = Ok (link fd')) /\
              (forall w, (os_readlink os (Py.path_join path_dir fd') w).1
                         = read_outcome (target fd')) /\
              (forall file, target fd' = Some file ->
                 forall w, (isfile_strict os file w).1 = Ok (regular file)))
      by (intros fd' Hin; apply Hreads, list_elem_of_further, Hin).
    destruct (run_fst _ _ _ (Hlink w)) as [w1 Hrun1].
    rewrite for_cons. cbn [omap list_omap]. unfold file_of at 1.
    destruct (link fd).
    2:{ rewrite (get_open_files_step_not_link _ _ _ _ _ _ Hrun1).
        apply (IH Hrest). }
    destruct (run_fst _ _ _ (Hread w1)) as [w2 Hrun2].
    destruct (target fd) as [file|] eqn:Htarget; cbn [read_outcome] in Hrun2.
    2:{ rewrite (get_open_files_step_enoent _ _ _ _ _ _ _ Hrun1 Hrun2).
        apply (IH Hrest). }
    destruct (run_fst _ _ _ (Hfile file eq_refl w2)) as [w3 Hrun3].
    rewrite (get_open_files_step_ok _ _ _ _ _ _ _ _ _ _ Hrun1 Hrun2 Hrun3).
    destruct (regular file); [|apply (IH Hrest)].
    rewrite Hint.
    destruct (IH Hrest (retlist ++ [nt_proc_file file n]) hit w3)
      as (hit' & w' & Hloop).
    exists hit', w'. rewrite Hloop, <- app_assoc. reflexivity.
Qed.

Lemma get_memory_maps_loop target (rawlist : list raw_mmap) :
  (forall item, item ∈ rawlist ->
     Py.startswith "[" (mmap_name item) = false ->
     forall w, (os_readlink os (mmap_link self item) w).1
               = read_outcome (target (mmap_name item))) ->
  forall retlist hit_enoent (w : W),
  exists hit_enoent' w',
    for_ rawlist (get_memory_maps_step os self) (retlist, hit_enoent) w
      = (Ok (retlist ++ map (mmap_of self target) rawlist, hit_enoent'), w').
Proof.
  induction rawlist as [|item rest IH]; intros Hreads retlist hit w.
  - exists hit, w. rewrite for_nil, app_nil_r. reflexivity.
  - assert (Hrest : forall item', item' ∈ rest ->
              Py.startswith "[" (mmap_name item') = false ->
              forall w, (os_readlink os (mmap_link self item') w).1
                        = read_outcome (target (mmap_name item')))
      by (intros item' Hin; apply Hreads, list_elem_of_further, Hin).
    rewrite for_cons. cbn [map]. unfold mmap_of at 1.
    destruct (Py.startswith "[" (mmap_name item)) eqn:Hname.
    + rewrite (get_memory_maps_step_bracket _ _ _ _ Hname).
      destruct (IH Hrest (retlist ++ [mmap_entry item (mmap_name item)]) hit w)
        as (hit' & w' & Hloop).
      exists hit', w'. rewrite Hloop, <- app_assoc. reflexivity.
    + pose proof (Hreads item (list_elem_of_here _ _) Hname w) as Hread.
      destruct (run_fst _ _ _ Hread) as [w1 Hrun].
      destruct (target (mmap_name item)) as [file|]; cbn [read_outcome] in Hrun.
      * rewrite (get_memory_maps_step_ok _ _ _ _ _ _ Hname Hrun).
        destruct (IH Hrest (retlist ++ [mmap_entry item file]) hit w1)
          as (hit' & w' & Hloop).
        exists hit', w'. rewrite Hloop, <- app_assoc. reflexivity.
      * rewrite (get_memory_maps_step_enoent _ _ _ _ _ Hname Hrun).
        destruct (IH Hrest (retlist ++ [mmap_entry item (mmap_link self item)]) true w1)
          as (hit' & w' & Hloop).
        exists hit', w'. rewrite Hloop, <- app_assoc. reflexivity.
Qed.

(** The examination after the loop, for a process that is alive. *)
Lemma verify_alive (hit_enoent : bool) (w : W) :
  (forall w, (os_stat os proc_dir w).1 = Ok tt) ->
  exists w',
    (if hit_enoent then os_stat os proc_dir else pure tt) w = (Ok tt, w').
Proof.
  intros Halive. destruct hit_enoent.
  - apply run_fst, Halive.
  - exists w. reflexivity.
Qed.

(** C2, as the code has it.  Let the process stay alive: examining
    [/proc/<pid>] succeeds whenever it is tried.  Let every per-entry
    read either return or fail with ENOENT.  Then no enumerator raises,
    and
    - [get_threads] returns the records of the threads whose times were
      read, in the order listed, and leaves out the others;
    - [get_open_files] returns the records of the descriptors that are
      links, whose link was read and leads to a regular file, and
      leaves out the others;
    - [get_memory_maps] leaves out nothing: a mapping whose link could
      not be read is returned with the path of the link as its name. *)
Theorem enumerators_process_alive :
  (forall w, (os_stat os proc_dir w).1 = Ok tt) ->
  (forall (w w1 : W) names detail,
     os_listdir os lwp_dir w = (Ok names, w1) ->
     (forall name, name ∈ names ->
        exists tid, Py.int name = Some tid /\
          forall w, (query_process_thread os (pid self) tid w).1
                    = read_outcome (detail tid)) ->
     (get_threads os self tt w).1 = Ok (omap (thread_of detail) names)) /\
  (forall (w w1 : W) fds link target regular,
     os_listdir os fd_dir w = (Ok fds, w1) ->
     (forall fd, fd ∈ fds ->
        is_Some (Py.int fd) /\
        (forall w, (os_path_islink os (Py.path_join path_dir fd) w).1
                   = Ok (link fd)) /\
        (forall w, (os_readlink os (Py.path_join path_dir fd) w).1
                   = read_outcome (target fd)) /\
        (forall file, target fd = Some file ->
           forall w, (isfile_strict os file w).1 = Ok (regular file))) ->
     (get_open_files os self tt w).1
       = Ok (omap (file_of link target regular) fds)) /\
  (forall (w w1 : W) rawlist target,
     get_proc_memory_maps os (pid self) w = (Ok rawlist, w1) ->
     (forall item, item ∈ rawlist ->
        Py.startswith "[" (mmap_name item) = false ->
        forall w, (os_readlink os (mmap_link self item) w).1
                  = read_outcome (target (mmap_name item))) ->
     (get_memory_maps os self tt w).1 = Ok (map (mmap_of self target) rawlist)).
Proof.
  intros Halive. repeat split.
  - intros w w1 names detail Hlist Hreads.
    destruct (get_threads_loop detail names Hreads [] false w1)
      as (hit & w2 & Hloop).
    destruct (verify_alive hit w2 Halive) as [w3 Hstat].
    unfold get_threads.
    rewrite (wrap_exceptions_run _ self tt w
               (Ok (omap (thread_of detail) names)) w3); [reflexivity|].
    rewrite (bind_ok _ _ _ _ _ Hlist), (bind_ok _ _ _ _ _ Hloop).
    rewrite (bind_ok _ _ _ _ _ Hstat). reflexivity.
  - intros w w1 fds link target regular Hlist Hreads.
    destruct (get_open_files_loop link target regular fds Hreads [] false w1)
      as (hit & w2 & Hloop).
    destruct (verify_alive hit w2 Halive) as [w3 Hstat].
    unfold get_open_files.
    rewrite (wrap_exceptions_run _ self tt w
               (Ok (omap (file_of link target regular) fds)) w3); [reflexivity|].
    cbv zeta.
    rewrite (bind_ok _ _ _ _ _ Hlist), (bind_ok _ _ _ _ _ Hloop).
    rewrite (bind_ok _ _ _ _ _ Hstat). reflexivity.
  - intros w w1 rawlist target Hlist Hreads.
    destruct (get_memory_maps_loop target rawlist Hreads [] false w1)
      as (hit & w2 & Hloop).
    destruct (verify_alive hit w2 Halive) as [w3 Hstat].
    unfold get_memory_maps.
    rewrite (wrap_exceptions_run _ self tt w
               (Ok (map (mmap_of self target) rawlist)) w3); [reflexivity|].
    rewrite (bind_ok _ _ _ _ _ Hlist), (bind_ok _ _ _ _ _ Hloop).
    rewrite (bind_ok _ _ _ _ _ Hstat). reflexivity.
Qed.

(** Once set, [hit_enoent] stays set to the end of the loop. *)
Lemma hit_enoent_kept :
  (forall tids ret (w w' : W) ret' hit_enoent',
     for_ tids (get_threads_step os self) (ret, true) w
       = (Ok (ret', hit_enoent'), w') ->
     hit_enoent' = true) /\
  (forall pathdir fds retlist (w w' : W) retlist' hit_enoent',
     for_ fds (get_open_files_step os self pathdir) (retlist, true) w
       = (Ok (retlist', hit_enoent'), w') ->
     hit_enoent' = true) /\
  (forall rawlist retlist (w w' : W) retlist' hit_enoent',
     for_ rawlist (get_memory_maps_step os self) (retlist, true) w
       = (Ok (retlist', hit_enoent'), w') ->
     hit_enoent' = true).
Proof.
  repeat split.
  - intros tids ret w w' ret' hit' Hrun.
    apply (for_invariant (fun vars => vars.2 = true) _ tids) in Hrun;
      [exact Hrun| |reflexivity].
    intros name [r h] w0 [r1 h1] w1 Hh Hstep. simpl in Hh. subst h.
    unfold get_threads_step, int in Hstep.
    destruct (Py.int name); [|discriminate].
    unfold bind, pure, try_except_EnvironmentError in Hstep.
    destruct (query_process_thread os (pid self) z w0)
      as [[[utime stime]|[err| | | | | | |]] w2]; try discriminate.
    + injection Hstep as _ <- _. reflexivity.
    + case_bool_decide; [|discriminate]. injection Hstep as _ <- _. reflexivity.
  - intros pathdir fds retlist w w' retlist' hit' Hrun.
    apply (for_invariant (fun vars => vars.2 = true) _ fds) in Hrun;
      [exact Hrun| |reflexivity].
    intros fd [r h] w0 [r1 h1] w1 Hh Hstep. simpl in Hh. subst h.
    unfold get_open_files_step in Hstep.
    unfold bind at 1 in Hstep.
    destruct (os_path_islink os (Py.path_join pathdir fd) w0)
      as [[[|]|e] w2]; try discriminate.
    2:{ injection Hstep as _ <- _. reflexivity. }
    unfold try_except_EnvironmentError in Hstep.
    destruct (os_readlink os (Py.path_join pathdir fd) w2)
      as [[file|[err| | | | | | |]] w3]; try discriminate.
    + unfold bind at 1 in Hstep.
      destruct (isfile_strict os file w3) as [[[|]|e] w4]; try discriminate.
      * unfold int in Hstep. destruct (Py.int fd); [|discriminate].
        injection Hstep as _ <- _. reflexivity.
      * injection Hstep as _ <- _. reflexivity.
    + case_bool_decide; [|discriminate]. injection Hstep as _ <- _. reflexivity.
  - intros rawlist retlist w w' retlist' hit' Hrun.
    apply (for_invariant (fun vars => vars.2 = true) _ rawlist) in Hrun;
      [exact Hrun| |reflexivity].
    intros item [r h] w0 [r1 h1] w1 Hh Hstep. simpl in Hh. subst h.
    destruct (Py.startswith "[" (mmap_name item)) eqn:Hname.
    + rewrite (get_memory_maps_step_bracket _ _ _ _ Hname) in Hstep.
      injection Hstep as _ <- _. reflexivity.
    + destruct (os_readlink os (mmap_link self item) w0)
        as [[file|e] w2] eqn:Hread.
      * rewrite (get_memory_maps_step_ok _ _ _ _ _ _ Hname Hread) in Hstep.
        injection Hstep as _ <- _. reflexivity.
      * destruct (decide (e = EnvironmentError errno.ENOENT)) as [->|Hne].
        -- rewrite (get_memory_maps_step_enoent _ _ _ _ _ Hname Hread) in Hstep.
           injection Hstep as _ <- _. reflexivity.
        -- rewrite (get_memory_maps_step_raises _ _ _ _ _ _ Hname Hread Hne)
             in Hstep.
           discriminate.
Qed.

(** C3.  In each of the three enumerators, threads, open files and
    memory maps: when the loop has run to its end with the flag
    [hit_enoent] set, and the examination of [/proc/<pid>] that follows
    fails with ENOENT because the process is gone, the call raises
    NoSuchProcess and the list the loop gathered is not returned. *)
Theorem enumerators_process_gone :
  (forall (w w1 w2 w3 : W) tids ret,
     os_listdir os lwp_dir w = (Ok tids, w1) ->
     for_ tids (get_threads_step os self) ([], false) w1 = (Ok (ret, true), w2) ->
     os_stat os proc_dir w2 = (enoent, w3) ->
     get_threads os self tt w
       = (Raise (NoSuchProcess (pid self) (_process_name self)), w3)) /\
  (forall (w w1 w2 w3 : W) fds retlist,
     os_listdir os fd_dir w = (Ok fds, w1) ->
     for_ fds (get_open_files_step os self path_dir) ([], false) w1
       = (Ok (retlist, true), w2) ->
     os_stat os proc_dir w2 = (enoent, w3) ->
     get_open_files os self tt w
       = (Raise (NoSuchProcess (pid self) (_process_name self)), w3)) /\
  (forall (w w1 w2 w3 : W) rawlist retlist,
     get_proc_memory_maps os (pid self) w = (Ok rawlist, w1) ->
     for_ rawlist (get_memory_maps_step os self) ([], false) w1
       = (Ok (retlist, true), w2) ->
     os_stat os proc_dir w2 = (enoent, w3) ->
     get_memory_maps os self tt w
       = (Raise (NoSuchProcess (pid self) (_process_name self)), w3)).
Proof.
  repeat split; intros w w1 w2 w3 entries ret Hlist Hloop Hstat.
  - unfold get_threads.
    rewrite (wrap_exceptions_run _ self tt w enoent w3); [reflexivity|].
    rewrite (bind_ok _ _ _ _ _ Hlist), (bind_ok _ _ _ _ _ Hloop).
    apply bind_raise. exact Hstat.
  - unfold get_open_files.
    rewrite (wrap_exceptions_run _ self tt w enoent w3); [reflexivity|].
    cbv zeta.
    rewrite (bind_ok _ _ _ _ _ Hlist), (bind_ok _ _ _ _ _ Hloop).
    apply bind_raise. exact Hstat.
  - unfold get_memory_maps.
    rewrite (wrap_exceptions_run _ self tt w enoent w3); [reflexivity|].
    rewrite (bind_ok _ _ _ _ _ Hlist), (bind_ok _ _ _ _ _ Hloop).
    apply bind_raise. exact Hstat.
Qed.

End Enumerators.

(** Process 7 of the simulated table: thread 2 and descriptor 2 vanish
    between the listing and the read, descriptor 3 is no link, and the
    link of [a.out] cannot be read. *)
Lemma enumerators_process_alive_witness :
  (get_threads Demo.os (__init__ 7) tt 0%nat).1
    = Ok [nt_proc_thread 1 10 1; nt_proc_thread 3 30 3] /\
  (get_open_files Demo.os (__init__ 7) tt 0%nat).1
    = Ok [nt_proc_file "/var/log/7/path/1" 1] /\
  (get_memory_maps Demo.os (__init__ 7) tt 0%nat).1
    = Ok [("8048000-8050000", "r-x", "/proc/7/path/a.out", 32, 0, 0);
          ("8044ea0-8048000", "rw-", "[ stack ]", 8, 8, 0)].
Proof.
  pose proof (enumerators_process_alive Demo.os (__init__ 7)
                (fun w => eq_refl)) as (Hthreads & Hfiles & Hmaps).
  split; [|split].
  - etransitivity.
    + apply (Hthreads 0%nat 1%nat ["1"; "2"; "3"]
               (fun tid => if tid =? 2 then None else Some (10 * tid, tid))).
      * reflexivity.
      * intros name Hin.
        repeat (apply elem_of_cons in Hin as [-> | Hin]);
          [exists 1 | exists 2 | exists 3 | by apply elem_of_nil in Hin];
          (split; [reflexivity | intros w; reflexivity]).
    + vm_compute. reflexivity.
  - etransitivity.
    + apply (Hfiles 0%nat 1%nat ["1"; "2"; "3"]
               (fun fd => negb (String.eqb fd "3"))
               (fun fd => if String.eqb fd "2" then None
                          else Some ("/var/log/7/path/" +:+ fd))
               (fun _ => true)).
      * reflexivity.
      * intros fd Hin.
        repeat (apply elem_of_cons in Hin as [-> | Hin]);
          [| | | by apply elem_of_nil in Hin];
          (split; [vm_compute; eauto |]);
          (split; [intros w; reflexivity |]);
          (split; [intros w; reflexivity |]);
          intros file _ w; reflexivity.
    + vm_compute. reflexivity.
  - etransitivity.
    + apply (Hmaps 0%nat 1%nat [Demo.a_out; Demo.stack] (fun _ => None)).
      * reflexivity.
      * intros item Hin.
        repeat (apply elem_of_cons in Hin as [-> | Hin]);
          [| | by apply elem_of_nil in Hin].
        -- intros _ w. reflexivity.
        -- intros Hname. vm_compute in Hname. discriminate.
    + vm_compute. reflexivity.
Defined.

(** C2 as it is written fails on [get_memory_maps].  Process 7 stays
    alive and the link of its mapping [a.out] cannot be read (ENOENT);
    the list returned holds that mapping all the same, under the path
    of the link, where the claim has it left out. *)
Lemma get_memory_maps_keeps_unread_entry :
  (forall w, (os_stat Demo.os "/proc/7" w).1 = Ok tt) /\
  get_proc_memory_maps Demo.os 7 0%nat = (Ok [Demo.a_out; Demo.stack], 1%nat) /\
  (forall w, (os_readlink Demo.os "/proc/7/path/a.out" w).1
             = Raise (EnvironmentError errno.ENOENT)) /\
  (get_memory_maps Demo.os (__init__ 7) tt 0%nat).1
    = Ok [("8048000-8050000", "r-x", "/proc/7/path/a.out", 32, 0, 0);
          ("8044ea0-8048000", "rw-", "[ stack ]", 8, 8, 0)] /\
  (get_memory_maps Demo.os (__init__ 7) tt 0%nat).1
    <> Ok [("8044ea0-8048000", "rw-", "[ stack ]", 8, 8, 0)].
Proof.
  repeat split; try (intros w; reflexivity).
  vm_compute. discriminate.
Qed.

(** Process 9 of the simulated table is gone by the time it is
    examined. *)
Lemma enumerators_process_gone_witness :
  get_threads Demo.os (__init__ 9) tt 0%nat
    = (Raise (NoSuchProcess 9 None), 5%nat) /\
  get_open_files Demo.os (__init__ 9) tt 0%nat
    = (Raise (NoSuchProcess 9 None), 8%nat) /\
  get_memory_maps Demo.os (__init__ 9) tt 0%nat
    = (Raise (NoSuchProcess 9 None), 3%nat).
Proof.
  pose proof (enumerators_process_gone Demo.os (__init__ 9))
    as (Hthreads & Hfiles & Hmaps).
  split; [|split].
  - apply (Hthreads 0%nat 1%nat 4%nat 5%nat ["1"; "2"; "3"]
             [nt_proc_thread 1 10 1; nt_proc_thread 3 30 3]);
      vm_compute; reflexivity.
  - apply (Hfiles 0%nat 1%nat 7%nat 8%nat ["1"; "2"; "3"]
             [nt_proc_file "/var/log/9/path/1" 1]);
      vm_compute; reflexivity.
  - apply (Hmaps 0%nat 1%nat 2%nat 3%nat [Demo.a_out; Demo.stack]
             [("8048000-8050000", "r-x", "/proc/9/path/a.out", 32, 0, 0);
              ("8044ea0-8048000", "rw-", "[ stack ]", 8, 8, 0)]);
      vm_compute; reflexivity.
Defined.


(** ** Further properties: the wrapper *)

Lemma wrap_exceptions_raises_other {W Args A : Type}
    (callable : Process -> Args -> M W A) (self : Process) (args : Args)
    (w w' : W) (err : Z) :
  wrap_exceptions callable self args w = (Raise (EnvironmentError err), w') ->
  err ∉ [errno.ENOENT; errno.ESRCH; errno.EPERM; errno.EACCES].
Proof.
  destruct (callable self args w) as [r w1] eqn:Hrun.
  rewrite (wrap_exceptions_run _ _ _ _ _ _ Hrun).
  destruct r as [a|[err'| | | | | | |]]; try discriminate.
  repeat case_bool_decide; try discriminate.
  intros [= <- <-]. rewrite !elem_of_cons, elem_of_nil in *. tauto.
Qed.

(** X1.  No wrapped callable lets a low-level failure with errno ENOENT,
    ESRCH, EPERM or EACCES out: a low-level failure that leaves the
    wrapper carries another errno. *)
Theorem wrap_exceptions_never_leaks {W Args A : Type}
    (callable : Process -> Args -> M W A) (self : Process) (args : Args)
    (w w' : W) (err : Z) :
  wrap_exceptions callable self args w = (Raise (EnvironmentError err), w') ->
  err <> errno.ENOENT /\ err <> errno.ESRCH /\
  err <> errno.EPERM /\ err <> errno.EACCES.
Proof.
  intros Hout. apply wrap_exceptions_raises_other in Hout.
  rewrite !elem_of_cons, elem_of_nil in Hout. tauto.
Qed.

Lemma wrap_exceptions_never_leaks_witness :
  5 <> errno.ENOENT /\ 5 <> errno.ESRCH /\ 5 <> errno.EPERM /\ 5 <> errno.EACCES.
Proof.
  apply (wrap_exceptions_never_leaks
           (fun _ (_ : unit) => Demo.tick (A:=Z) (Demo.fails 5))
           (__init__ 7) tt 0%nat 1%nat 5).
  reflexivity.
Defined.

(** X2.  Wrapping twice is wrapping once: an accessor that calls another
    accessor, as [get_exe] means to, sees the same outcome as its
    caller will. *)
Theorem wrap_exceptions_idempotent {W Args A : Type}
    (callable : Process -> Args -> M W A) (self : Process) (args : Args) (w : W) :
  wrap_exceptions (wrap_exceptions callable) self args w
  = wrap_exceptions callable self args w.
Proof.
  destruct (wrap_exceptions callable self args w) as [r w'] eqn:Hwrapped.
  rewrite (wrap_exceptions_run _ _ _ _ _ _ Hwrapped).
  destruct r as [a|[err| | | | | | |]]; try reflexivity.
  pose proof (wrap_exceptions_raises_other _ _ _ _ _ _ Hwrapped) as Hout.
  rewrite !bool_decide_eq_false_2; [reflexivity | |];
    intros Hin; apply Hout; rewrite !elem_of_cons in *; tauto.
Qed.

(** ** Further properties: single values *)

Lemma split_not_nil sep s : Py.split sep s <> [].
Proof.
  destruct s as [|c s]; simpl; [discriminate|].
  destruct (Ascii.eqb c sep); [discriminate|].
  destruct (Py.split sep s); discriminate.
Qed.

(** Joining what [split] cut gives the text back. *)
Lemma join_split sep s :
  Py.join (String sep EmptyString) (Py.split sep s) = s.
Proof.
  unfold Py.join. induction s as [|c s IH]; [reflexivity|].
  simpl Py.split. destruct (Ascii.eqb_spec c sep) as [->|Hne].
  - pose proof (split_not_nil sep s) as Hnil.
    destruct (Py.split sep s) as [|piece pieces]; [contradiction|].
    change (String.concat (String sep EmptyString) (EmptyString :: piece :: pieces))
      with (String sep (String.concat (String sep EmptyString) (piece :: pieces))).
    rewrite IH. reflexivity.
  - pose proof (split_not_nil sep s) as Hnil.
    destruct (Py.split sep s) as [|piece pieces]; [contradiction|].
    rewrite <- IH. destruct pieces; reflexivity.
Qed.

(** X3.  What [get_cmdline] returns is the argument string of the
    process cut at every single space: it is never the empty list, and
    joined with spaces it is that string again, the one [get_name]
    reads the name beside. *)
Theorem get_cmdline_join {W float : Type} (os : OS W float) (self : Process)
    (w w' : W) (cmdline : list string) :
  get_cmdline os self tt w = (Ok cmdline, w') ->
  exists name args,
    get_proc_name_and_args os (pid self) w = (Ok (name, args), w') /\
    get_name os self tt w = (Ok name, w') /\
    Py.join " " cmdline = args /\
    cmdline <> [].
Proof.
  intros Hcmd. unfold get_cmdline in Hcmd.
  apply wrap_exceptions_ok_inv in Hcmd. cbv beta in Hcmd.
  unfold bind in Hcmd.
  destruct (get_proc_name_and_args os (pid self) w)
    as [[[name args]|e] w1] eqn:Hread; [|discriminate].
  injection Hcmd as <- <-. exists name, args. repeat split.
  - unfold get_name.
    rewrite (wrap_exceptions_run _ self tt w (Ok name) w1); [reflexivity|].
    rewrite (bind_ok _ _ _ _ _ Hread). reflexivity.
  - apply join_split.
  - apply split_not_nil.
Qed.

Lemma get_cmdline_join_witness :
  exists name args,
    get_proc_name_and_args Demo.os 7 0%nat = (Ok (name, args), 1%nat) /\
    get_name Demo.os (__init__ 7) tt 0%nat = (Ok name, 1%nat) /\
    Py.join " " ["/sbin/init"; "-r"] = args /\
    ["/sbin/init"; "-r"] <> [].
Proof.
  apply (get_cmdline_join Demo.os (__init__ 7) 0%nat 1%nat ["/sbin/init"; "-r"]).
  reflexivity.
Defined.

(** X4.  When reading the priority fails with EPERM or EACCES,
    [get_nice] raises AccessDenied at once: the existence of the
    process is not looked into, the world is as the failed read left
    it. *)
Theorem get_nice_permission {W float : Type} (os : OS W float)
    (self : Process) (w w1 : W) (err : Z) :
  getpriority os (pid self) w = (Raise (EnvironmentError err), w1) ->
  err = errno.EPERM \/ err = errno.EACCES ->
  get_nice os self tt w
    = (Raise (AccessDenied (pid self) (_process_name self)), w1).
Proof.
  intros Hprio Herr. unfold get_nice.
  rewrite (wrap_exceptions_run _ self tt w (Raise (EnvironmentError err)) w1).
  - destruct Herr as [-> | ->]; reflexivity.
  - unfold try_except_EnvironmentError. rewrite Hprio.
    destruct Herr as [-> | ->]; reflexivity.
Qed.

Lemma get_nice_permission_witness :
  get_nice DemoSys.os (__init__ 1) tt 0%nat
    = (Raise (AccessDenied 1 None), 1%nat).
Proof.
  apply (get_nice_permission DemoSys.os (__init__ 1) 0%nat 1%nat errno.EPERM).
  - reflexivity.
  - left; reflexivity.
Defined.

(** ** Further properties: what the enumerators return *)

Section Listed.
Context {W float : Type} (os : OS W float) (self : Process).

(** A turn of the loop of [get_threads] that does not raise has read a
    number off the name, and has added at most the record of it. *)
Lemma get_threads_step_inv name ret hit_enoent (w w1 : W) ret1 hit1 :
  get_threads_step os self name (ret, hit_enoent) w = (Ok (ret1, hit1), w1) ->
  exists tid, Py.int name = Some tid /\
    (ret1 = ret \/ exists utime stime, ret1 = ret ++ [nt_proc_thread tid utime stime]).
Proof.
  unfold get_threads_step, int. destruct (Py.int name) as [tid|]; [|discriminate].
  unfold bind, pure, try_except_EnvironmentError.
  destruct (query_process_thread os (pid self) tid w)
    as [[[utime stime]|[err| | | | | | |]] w2]; try discriminate.
  - intros [= <- <- <-]. exists tid. split; [reflexivity|]. right. eauto.
  - case_bool_decide; [|discriminate].
    intros [= <- <- <-]. exists tid. split; [reflexivity|]. left. reflexivity.
Qed.

Lemma get_threads_loop_listed (names : list string) :
  forall ret hit_enoent (w w' : W) ret' hit',
    for_ names (get_threads_step os self) (ret, hit_enoent) w
      = (Ok (ret', hit'), w') ->
    exists added,
      ret' = ret ++ added /\
      sublist (thread_id float <$> added) (omap Py.int names).
Proof.
  induction names as [|name rest IH]; intros ret hit w w' ret' hit' Hrun.
  - rewrite for_nil in Hrun. injection Hrun as <- _ _.
    exists []. rewrite app_nil_r. split; [reflexivity | constructor].
  - rewrite for_cons in Hrun.
    destruct (get_threads_step os self name (ret, hit) w)
      as [[[ret1 hit1]|e] w1] eqn:Hstep; [|discriminate].
    destruct (get_threads_step_inv _ _ _ _ _ _ _ Hstep)
      as (tid & Hint & [-> | (utime & stime & ->)]);
      destruct (IH _ _ _ _ _ _ Hrun) as (added & -> & Hsub);
      cbn [omap list_omap]; rewrite Hint.
    + exists added. split; [reflexivity|]. by apply sublist_cons.
    + exists (nt_proc_thread tid utime stime :: added).
      rewrite <- app_assoc. split; [reflexivity|].
      cbn [fmap list_fmap thread_id]. by apply sublist_skip.
Qed.

(** A turn of the loop of [get_open_files] that does not raise has
    added at most one record, numbered by the name of the descriptor. *)
Lemma get_open_files_step_inv pathdir fd retlist hit_enoent (w w1 : W)
    retlist1 hit1 :
  get_open_files_step os self pathdir fd (retlist, hit_enoent) w
    = (Ok (retlist1, hit1), w1) ->
  retlist1 = retlist \/
  exists file n, Py.int fd = Some n /\ retlist1 = retlist ++ [nt_proc_file file n].
Proof.
  unfold get_open_files_step. unfold bind at 1.
  destruct (os_path_islink os (Py.path_join pathdir fd) w)
    as [[[|]|e] w2]; try discriminate.
  2:{ intros [= <- <- <-]. left. reflexivity. }
  unfold try_except_EnvironmentError.
  destruct (os_readlink os (Py.path_join pathdir fd) w2)
    as [[file|[err| | | | | | |]] w3]; try discriminate.
  - unfold bind at 1.
    destruct (isfile_strict os file w3) as [[[|]|e] w4]; try discriminate.
    + unfold int. destruct (Py.int fd) as [n|]; [|discriminate].
      intros [= <- <- <-]. right. eauto.
    + intros [= <- <- <-]. left. reflexivity.
  - case_bool_decide; [|discriminate].
    intros [= <- <- <-]. left. reflexivity.
Qed.

Lemma get_open_files_loop_listed pathdir (fds : list string) :
  forall retlist hit_enoent (w w' : W) retlist' hit',
    for_ fds (get_open_files_step os self pathdir) (retlist, hit_enoent) w
      = (Ok (retlist', hit'), w') ->
    exists added,
      retlist' = retlist ++ added /\
      (length added <= length fds)%nat /\
      forall f, f ∈ added -> exists fd, fd ∈ fds /\ Py.int fd = Some (file_fd f).
Proof.
  induction fds as [|fd rest IH]; intros retlist hit w w' retlist' hit' Hrun.
  - rewrite for_nil in Hrun. injection Hrun as <- _ _.
    exists []. rewrite app_nil_r. repeat split; [reflexivity|].
    intros f Hf. by apply elem_of_nil in Hf.
  - rewrite for_cons in Hrun.
    destruct (get_open_files_step os self pathdir fd (retlist, hit) w)
      as [[[retlist1 hit1]|e] w1] eqn:Hstep; [|discriminate].
    destruct (get_open_files_step_inv _ _ _ _ _ _ _ _ Hstep)
      as [-> | (file & n & Hint & ->)];
      destruct (IH _ _ _ _ _ _ Hrun) as (added & -> & Hlen & Hfrom).
    + exists added. split; [reflexivity|]. split; [simpl; lia|].
      intros f Hf. destruct (Hfrom f Hf) as (fd' & Hin & Hfd).
      exists fd'. split; [by apply list_elem_of_further | exact Hfd].
    + exists (nt_proc_file file n :: added).
      rewrite <- app_assoc. split; [reflexivity|]. split; [simpl; lia|].
      intros f Hf. apply elem_of_cons in Hf as [-> | Hf].
      * exists fd. split; [apply list_elem_of_here | exact Hint].
      * destruct (Hfrom f Hf) as (fd' & Hin & Hfd).
        exists fd'. split; [by apply list_elem_of_further | exact Hfd].
Qed.

(** A turn of the loop of [get_memory_maps] that does not raise has
    added the record of its mapping, under a name that is the
    mapping's own when bracketed, and else what the link leads to or
    the link itself. *)
Lemma get_memory_maps_step_inv item retlist hit_enoent (w w1 : W) retlist1 hit1 :
  get_memory_maps_step os self item (retlist, hit_enoent) w
    = (Ok (retlist1, hit1), w1) ->
  exists name,
    retlist1 = retlist ++ [mmap_entry item name] /\
    (if Py.startswith "[" (mmap_name item) then name = mmap_name item
     else name = mmap_link self item \/
          os_readlink os (mmap_link self item) w = (Ok name, w1)).
Proof.
  intros Hstep. destruct (Py.startswith "[" (mmap_name item)) eqn:Hname.
  - rewrite (get_memory_maps_step_bracket _ _ _ _ _ _ Hname) in Hstep.
    injection Hstep as <- _ _. eauto.
  - destruct (os_readlink os (mmap_link self item) w) as [[file|e] w2] eqn:Hread.
    + rewrite (get_memory_maps_step_ok _ _ _ _ _ _ _ _ Hname Hread) in Hstep.
      injection Hstep as <- _ <-. eauto.
    + destruct (decide (e = EnvironmentError errno.ENOENT)) as [->|Hne].
      * rewrite (get_memory_maps_step_enoent _ _ _ _ _ _ _ Hname Hread) in Hstep.
        injection Hstep as <- _ _. eauto.
      * rewrite (get_memory_maps_step_raises _ _ _ _ _ _ _ _ Hname Hread Hne)
          in Hstep.
        discriminate.
Qed.

Lemma get_memory_maps_loop_all (rawlist : list raw_mmap) :
  forall retlist hit_enoent (w w' : W) retlist' hit',
    for_ rawlist (get_memory_maps_step os self) (retlist, hit_enoent) w
      = (Ok (retlist', hit'), w') ->
    exists added,
      retlist' = retlist ++ added /\
      Forall2 (fun item entry =>
                 exists name, entry = mmap_entry item name /\
                   (Py.startswith "[" (mmap_name item) = true ->
                    name = mmap_name item))
              rawlist added.
Proof.
  induction rawlist as [|item rest IH]; intros retlist hit w w' retlist' hit' Hrun.
  - rewrite for_nil in Hrun. injection Hrun as <- _ _.
    exists []. rewrite app_nil_r. split; [reflexivity | constructor].
  - rewrite for_cons in Hrun.
    destruct (get_memory_maps_step os self item (retlist, hit) w)
      as [[[retlist1 hit1]|e] w1] eqn:Hstep; [|discriminate].
    destruct (get_memory_maps_step_inv _ _ _ _ _ _ _ Hstep) as (name & -> & Hname).
    destruct (IH _ _ _ _ _ _ Hrun) as (added & -> & Hall).
    exists (mmap_entry item name :: added).
    rewrite <- app_assoc. split; [reflexivity|].
    constructor; [|exact Hall].
    exists name. split; [reflexivity|]. intros Hb. rewrite Hb in Hname. exact Hname.
Qed.

End Listed.

Lemma omap_length_le {A B} (f : A -> option B) (l : list A) :
  (length (omap f l) <= length l)%nat.
Proof.
  induction l as [|x l IH]; [reflexivity|].
  cbn [omap list_omap]. destruct (f x); simpl; lia.
Qed.

(** X5.  The threads [get_threads] returns are threads that were listed:
    their ids are numbers read off the names in [/proc/<pid>/lwp], in
    the order of the listing and each listed name used at most once, so
    that there are never more of them than names. *)
Theorem get_threads_listed {W float : Type} (os : OS W float) (self : Process)
    (w w' : W) (threads : list (thread float)) :
  get_threads os self tt w = (Ok threads, w') ->
  exists names w1,
    os_listdir os ("/proc/" +:+ Py.str (pid self) +:+ "/lwp") w = (Ok names, w1) /\
    sublist (thread_id float <$> threads) (omap Py.int names) /\
    (length threads <= length names)%nat.
Proof.
  intros Hrun. unfold get_threads in Hrun.
  apply wrap_exceptions_ok_inv in Hrun. cbv beta in Hrun.
  unfold bind at 1 in Hrun.
  destruct (os_listdir os ("/proc/" +:+ Py.str (pid self) +:+ "/lwp") w)
    as [[names|e] w1] eqn:Hlist; [|discriminate].
  unfold bind at 1 in Hrun.
  destruct (for_ names (get_threads_step os self) ([], false) w1)
    as [[[ret hit]|e] w2] eqn:Hloop; [|discriminate].
  destruct (get_threads_loop_listed os self names _ _ _ _ _ _ Hloop)
    as (added & -> & Hsub).
  unfold bind in Hrun.
  destruct ((if hit then os_stat os ("/proc/" +:+ Py.str (pid self)) else pure ()) w2)
    as [[[]|e] w3]; [|discriminate].
  injection Hrun as <- _. exists names, w1.
  split; [reflexivity|]. split; [exact Hsub|].
  apply sublist_length in Hsub. rewrite length_fmap in Hsub.
  pose proof (omap_length_le Py.int names). lia.
Qed.

Lemma get_threads_listed_witness :
  exists names w1,
    os_listdir Demo.os ("/proc/" +:+ Py.str 7 +:+ "/lwp") 0%nat = (Ok names, w1) /\
    sublist (thread_id Z <$> [nt_proc_thread 1 10 1; nt_proc_thread 3 30 3])
            (omap Py.int names) /\
    (length [nt_proc_thread 1 10 1; nt_proc_thread 3 30 3] <= length names)%nat.
Proof.
  apply (get_threads_listed Demo.os (__init__ 7) 0%nat 5%nat
           [nt_proc_thread 1 10 1; nt_proc_thread 3 30 3]).
  vm_compute. reflexivity.
Defined.

(** X6.  From one and the same state of the world, [get_open_files]
    returns at most as many files as [get_num_fds] counts descriptors,
    and the descriptor number of each is the number read off a name in
    [/proc/<pid>/fd]. *)
Theorem get_open_files_at_most_num_fds {W float : Type} (os : OS W float)
    (self : Process) (w w' w1 : W) (files : list openfile) (n : Z) :
  get_open_files os self tt w = (Ok files, w') ->
  get_num_fds os self tt w = (Ok n, w1) ->
  Z.of_nat (length files) <= n /\
  exists fds,
    os_listdir os ("/proc/" +:+ Py.str (pid self) +:+ "/fd") w = (Ok fds, w1) /\
    n = Z.of_nat (length fds) /\
    forall f, f ∈ files -> exists fd, fd ∈ fds /\ Py.int fd = Some (file_fd f).
Proof.
  intros Hfiles Hnum.
  unfold get_num_fds in Hnum. apply wrap_exceptions_ok_inv in Hnum.
  cbv beta in Hnum. unfold bind in Hnum.
  destruct (os_listdir os ("/proc/" +:+ Py.str (pid self) +:+ "/fd") w)
    as [[fds|e] w2] eqn:Hlist; [|discriminate].
  injection Hnum as <- <-.
  unfold get_open_files in Hfiles. apply wrap_exceptions_ok_inv in Hfiles.
  cbv beta zeta in Hfiles.
  rewrite (bind_ok _ _ _ _ _ Hlist) in Hfiles.
  unfold bind at 1 in Hfiles.
  destruct (for_ fds
              (get_open_files_step os self
                 ("/proc/" +:+ Py.str (pid self) +:+ "/path")) ([], false) w2)
    as [[[retlist hit]|e] w3] eqn:Hloop; [|discriminate].
  destruct (get_open_files_loop_listed os self _ fds _ _ _ _ _ _ Hloop)
    as (added & -> & Hlen & Hfrom).
  unfold bind in Hfiles.
  destruct ((if hit then os_stat os ("/proc/" +:+ Py.str (pid self)) else pure ()) w3)
    as [[[]|e] w4]; [|discriminate].
  injection Hfiles as <- _. split; [simpl; lia|].
  exists fds. split; [reflexivity|]. split; [reflexivity|]. exact Hfrom.
Qed.

Lemma get_open_files_at_most_num_fds_witness :
  Z.of_nat (length [nt_proc_file "/var/log/7/path/1" 1]) <= 3 /\
  exists fds,
    os_listdir Demo.os ("/proc/" +:+ Py.str 7 +:+ "/fd") 0%nat = (Ok fds, 1%nat) /\
    3 = Z.of_nat (length fds) /\
    forall f, f ∈ [nt_proc_file "/var/log/7/path/1" 1] ->
      exists fd, fd ∈ fds /\ Py.int fd = Some (file_fd f).
Proof.
  apply (get_open_files_at_most_num_fds Demo.os (__init__ 7) 0%nat 8%nat 1%nat
           [nt_proc_file "/var/log/7/path/1" 1] 3).
  - vm_compute. reflexivity.
  - vm_compute. reflexivity.
Defined.

(** X7.  [get_memory_maps] returns one record for every mapping the
    process table gave, in the same order: none is left out or added.
    The record keeps the permissions and the sizes of the mapping and
    shows its address range in hexadecimal; a bracketed name, such as
    that of the stack, is returned as it is. *)
Theorem get_memory_maps_one_per_mapping {W float : Type} (os : OS W float)
    (self : Process) (w w' : W) (maps : list mmap_ext) :
  get_memory_maps os self tt w = (Ok maps, w') ->
  exists rawlist w1,
    get_proc_memory_maps os (pid self) w = (Ok rawlist, w1) /\
    length maps = length rawlist /\
    Forall2 (fun item entry =>
               exists name, entry = mmap_entry item name /\
                 (Py.startswith "[" (mmap_name item) = true ->
                  name = mmap_name item))
            rawlist maps.
Proof.
  intros Hrun. unfold get_memory_maps in Hrun.
  apply wrap_exceptions_ok_inv in Hrun. cbv beta in Hrun.
  unfold bind at 1 in Hrun.
  destruct (get_proc_memory_maps os (pid self) w)
    as [[rawlist|e] w1] eqn:Hraw; [|discriminate].
  unfold bind at 1 in Hrun.
  destruct (for_ rawlist (get_memory_maps_step os self) ([], false) w1)
    as [[[retlist hit]|e] w2] eqn:Hloop; [|discriminate].
  destruct (get_memory_maps_loop_all os self rawlist _ _ _ _ _ _ Hloop)
    as (added & -> & Hall).
  unfold bind in Hrun.
  destruct ((if hit then os_stat os ("/proc/" +:+ Py.str (pid self)) else pure ()) w2)
    as [[[]|e] w3]; [|discriminate].
  injection Hrun as <- _. exists rawlist, w1.
  split; [reflexivity|]. split; [|exact Hall].
  symmetry. exact (Forall2_length _ _ _ Hall).
Qed.

Lemma get_memory_maps_one_per_mapping_witness :
  exists rawlist w1,
    get_proc_memory_maps Demo.os 7 0%nat = (Ok rawlist, w1) /\
    length [("8048000-8050000", "r-x", "/proc/7/path/a.out", 32, 0, 0);
            ("8044ea0-8048000", "rw-", "[ stack ]", 8, 8, 0)] = length rawlist /\
    Forall2 (fun item entry =>
               exists name, entry = mmap_entry item name /\
                 (Py.startswith "[" (mmap_name item) = true ->
                  name = mmap_name item))
            rawlist
            [("8048000-8050000", "r-x", "/proc/7/path/a.out", 32, 0, 0);
             ("8044ea0-8048000", "rw-", "[ stack ]", 8, 8, 0)].
Proof.
  apply (get_memory_maps_one_per_mapping Demo.os (__init__ 7) 0%nat 3%nat).
  vm_compute. reflexivity.
Defined.

(** ** Further properties: connections *)

Section UnixSockets.
Context {W float : Type} (os : OS W float) (pf : Platform) (self : Process).

Lemma _get_unix_sockets_step_shape lines entry conns (w w' : W) conns' :
  Forall (unix_shaped pf) conns ->
  _get_unix_sockets_step pf lines entry conns w = (Ok conns', w') ->
  Forall (unix_shaped pf) conns'.
Proof.
  intros Hconns. destruct entry as [i line]. unfold _get_unix_sockets_step.
  destruct (Py.startswith "sockname: AF_UNIX" (Py.lstrip line)).
  2:{ intros [= <- _]. exact Hconns. }
  unfold getitem.
  destruct (Py.index (Py.split_max " " 2 (Py.lstrip line)) 2) as [path|];
    [|discriminate].
  destruct (Py.index lines (i - 2)) as [type|]; [|discriminate].
  intros [= <- _]. apply Forall_app. split; [exact Hconns|].
  constructor; [|constructor].
  repeat split; try reflexivity; [|eauto]. cbn [conn_type].
  destruct (String.eqb (Py.strip type) "SOCK_STREAM"); [set_solver|].
  destruct (String.eqb (Py.strip type) "SOCK_DGRAM"); set_solver.
Qed.

Lemma _get_unix_sockets_shape (p : Z) (w w' : W) conns :
  _get_unix_sockets os pf self p w = (Ok conns, w') ->
  Forall (unix_shaped pf) conns.
Proof.
  unfold _get_unix_sockets. unfold bind at 1.
  destruct (pfiles os ("pfiles " +:+ Py.str p) w)
    as [[[[returncode stdout] stderr]|e] w1]; [|discriminate].
  unfold bind at 1.
  destruct (negb (returncode =? 0)).
  { destruct (Py.contains "permission denied" (Py.lower stderr)); [discriminate|].
    destruct (Py.contains "no such process" (Py.lower stderr)); discriminate. }
  cbn [pure]. intros Hloop.
  apply (for_invariant (Forall (unix_shaped pf)) _ _
           (fun entry conns w conns' w' Hc Hs =>
              _get_unix_sockets_step_shape _ entry conns w w' conns' Hc Hs)
           _ _ _ _ (Forall_nil_2 _) Hloop).
Qed.

End UnixSockets.

(** X8.  Whatever [pfiles] prints, every connection
    [_get_unix_sockets] makes of it has the descriptor -1, the family
    AF_UNIX, a type that is SOCK_STREAM, SOCK_DGRAM or -1, a path as
    its local address, the empty text as its remote address and the
    status NONE. *)
Theorem _get_unix_sockets_records {W float : Type} (os : OS W float)
    (pf : Platform) (self : Process) (p : Z) (w w' : W)
    (conns : list connection) :
  _get_unix_sockets os pf self p w = (Ok conns, w') ->
  forall c, c ∈ conns ->
    conn_fd c = -1 /\
    conn_family c = AF_UNIX pf /\
    (conn_type c = SOCK_STREAM pf \/ conn_type c = SOCK_DGRAM pf \/ conn_type c = -1) /\
    (exists path, conn_laddr c = addr_text path) /\
    conn_raddr c = addr_text "" /\
    conn_status_of c = CONN_NONE.
Proof.
  intros Hrun c Hc. apply _get_unix_sockets_shape in Hrun.
  rewrite Forall_forall in Hrun.
  destruct (Hrun c Hc) as (Hfd & Hfam & Htype & Hl & Hr & Hst).
  repeat split; try assumption.
  rewrite !elem_of_cons, elem_of_nil in Htype. tauto.
Qed.

Lemma _get_unix_sockets_records_witness :
  let c := nt_proc_conn (-1) 1 2 (addr_text "/tmp/demo.sock") (addr_text "")
             CONN_NONE in
  conn_fd c = -1 /\
  conn_family c = AF_UNIX Demo.platform /\
  (conn_type c = SOCK_STREAM Demo.platform \/
   conn_type c = SOCK_DGRAM Demo.platform \/ conn_type c = -1) /\
  (exists path, conn_laddr c = addr_text path) /\
  conn_raddr c = addr_text "" /\
  conn_status_of c = CONN_NONE.
Proof.
  apply (_get_unix_sockets_records Demo.os Demo.platform (__init__ 5) 5
           0%nat 1%nat
           [nt_proc_conn (-1) 1 2 (addr_text "/tmp/demo.sock") (addr_text "")
              CONN_NONE]).
  - vm_compute. reflexivity.
  - apply list_elem_of_here.
Defined.

(** X9.  When [pfiles] ends with a return code other than 0,
    [_get_unix_sockets] returns nothing, whatever was printed: it
    raises AccessDenied if the error text holds "permission denied" in
    any mix of cases, else NoSuchProcess if it holds "no such process",
    else RuntimeError; the two domain errors carry the identity of the
    handle. *)
Theorem _get_unix_sockets_failure {W float : Type} (os : OS W float)
    (pf : Platform) (self : Process) (p : Z) (w w1 : W)
    (returncode : Z) (stdout stderr : string) :
  pfiles os ("pfiles " +:+ Py.str p) w = (Ok (returncode, stdout, stderr), w1) ->
  returncode <> 0 ->
  (Py.contains "permission denied" (Py.lower stderr) = true ->
   _get_unix_sockets os pf self p w
     = (Raise (AccessDenied (pid self) (_process_name self)), w1)) /\
  (Py.contains "permission denied" (Py.lower stderr) = false ->
   Py.contains "no such process" (Py.lower stderr) = true ->
   _get_unix_sockets os pf self p w
     = (Raise (NoSuchProcess (pid self) (_process_name self)), w1)) /\
  (Py.contains "permission denied" (Py.lower stderr) = false ->
   Py.contains "no such process" (Py.lower stderr) = false ->
   exists msg,
     _get_unix_sockets os pf self p w = (Raise (RuntimeError msg), w1)).
Proof.
  intros Hrun Hcode.
  assert (Hneg : negb (returncode =? 0) = true)
    by (apply negb_true_iff, Z.eqb_neq; exact Hcode).
  unfold _get_unix_sockets. rewrite (bind_ok _ _ _ _ _ Hrun). rewrite Hneg.
  repeat split.
  - intros ->. reflexivity.
  - intros -> ->. reflexivity.
  - intros -> ->. eexists. reflexivity.
Qed.

Lemma _get_unix_sockets_failure_witness :
  _get_unix_sockets DemoSys.os Demo.platform (__init__ 1) 1 0%nat
    = (Raise (AccessDenied 1 None), 1%nat).
Proof.
  refine (proj1 (_get_unix_sockets_failure DemoSys.os Demo.platform (__init__ 1) 1
                   0%nat 1%nat 1 ""
                   "pfiles: Permission denied; no such process" _ _) _).
  - reflexivity.
  - discriminate.
  - reflexivity.
Defined.

Lemma mapped_selected (pf : Platform) families types rawlist inet :
  Forall2 (mapped pf) (List.filter (selected families types) rawlist) inet ->
  Forall (fun c => conn_family c ∈ families /\ conn_type c ∈ types) inet.
Proof.
  intros Hmap.
  assert (Hsel : Forall (fun item => selected families types item = true)
                   (List.filter (selected families types) rawlist)).
  { apply List.Forall_forall. intros item Hin.
    apply List.filter_In in Hin. tauto. }
  induction Hmap as [|item c items cs Hm _ IH]; [constructor|].
  inversion Hsel as [|? ? Hitem Hrest]; subst.
  constructor; [|exact (IH Hrest)].
  destruct item as [[[[[fd fam] type] laddr] raddr] status].
  destruct Hm as (st & _ & ->).
  unfold selected, raw_family, raw_type in Hitem. cbn [fst snd] in Hitem.
  apply andb_true_iff in Hitem as [Hfam Htype].
  apply bool_decide_eq_true_1 in Hfam. apply bool_decide_eq_true_1 in Htype.
  split; assumption.
Qed.

(** X10.  Every connection [get_connections] returns is of a family the
    kind asks for.  It is moreover of a type the kind asks for, unless
    it is one of the records made from the output of [pfiles], which
    are not sieved by type. *)
Theorem get_connections_families {W float : Type} (os : OS W float)
    (pf : Platform) (self : Process) (kind : string)
    (families types : list Z) (w w' : W) (ret : list connection) :
  conn_tmap pf !! kind = Some (families, types) ->
  get_connections os pf self kind w = (Ok ret, w') ->
  forall c, c ∈ ret ->
    conn_family c ∈ families /\
    (conn_type c ∈ types \/
     conn_fd c = -1 /\ conn_family c = AF_UNIX pf /\ conn_status_of c = CONN_NONE).
Proof.
  intros Hkind Hret c Hc. unfold get_connections in Hret.
  apply wrap_exceptions_ok_inv in Hret. cbv beta in Hret.
  rewrite Hkind in Hret. unfold bind at 1 in Hret.
  destruct (get_proc_connections os (pid self) families types w)
    as [[rawlist|e] w1]; [|discriminate].
  unfold bind at 1 in Hret.
  destruct ((if bool_decide (rawlist = [])
             then os_stat os ("/proc/" +:+ Py.str (pid self))
             else pure ()) w1) as [[[]|e] w2]; [|discriminate].
  unfold bind at 1 in Hret.
  destruct (get_connections_loop pf families types rawlist [] w2)
    as [(inet & Hrun & Hmap & _)|(it & Hrun & _)];
    rewrite Hrun in Hret; [|discriminate].
  apply mapped_selected in Hmap. rewrite Forall_forall in Hmap.
  simpl in Hret. case_bool_decide as Hunix.
  - unfold bind in Hret.
    destruct (_get_unix_sockets os pf self (pid self) w2) as [[unix|e] w3]
      eqn:Hunix_run; [|discriminate].
    injection Hret as <- _.
    apply _get_unix_sockets_shape in Hunix_run.
    rewrite Forall_forall in Hunix_run.
    apply elem_of_app in Hc as [Hc | Hc].
    + destruct (Hmap c Hc). split; [assumption | left; assumption].
    + destruct (Hunix_run c Hc) as (Hfd & Hfam & _ & _ & _ & Hst).
      split; [rewrite Hfam; exact Hunix | right; repeat split; assumption].
  - injection Hret as <- _.
    destruct (Hmap c Hc). split; [assumption | left; assumption].
Qed.

Lemma get_connections_families_witness :
  let c := nt_proc_conn 3 2 2 (addr_inet "127.0.0.1" 22) addr_empty CONN_LISTEN in
  conn_family c ∈ [2; 26] /\
  (conn_type c ∈ [2; 1] \/
   conn_fd c = -1 /\ conn_family c = AF_UNIX Demo.platform /\
   conn_status_of c = CONN_NONE).
Proof.
  apply (get_connections_families Demo.os Demo.platform (__init__ 7) "inet"
           [2; 26] [2; 1] 0%nat 1%nat
           [nt_proc_conn 3 2 2 (addr_inet "127.0.0.1" 22) addr_empty CONN_LISTEN]).
  - vm_compute. reflexivity.
  - vm_compute. reflexivity.
  - apply list_elem_of_here.
Defined.

(** X11.  Once the raw list is there and holds something, a kind
    without the unix family makes [get_connections] end without
    another call: [/proc/<pid>] is not examined and [pfiles] is not
    run, whether the call returns or raises. *)
Theorem get_connections_no_further_call {W float : Type} (os : OS W float)
    (pf : Platform) (self : Process) (kind : string)
    (families types : list Z) (rawlist : list raw_conn) (w w1 : W) :
  conn_tmap pf !! kind = Some (families, types) ->
  get_proc_connections os (pid self) families types w = (Ok rawlist, w1) ->
  rawlist <> [] ->
  AF_UNIX pf ∉ families ->
  exists outcome, get_connections os pf self kind w = (outcome, w1).
Proof.
  intros Hkind Hraw Hne Hunix. unfold get_connections.
  destruct (get_connections_loop pf families types rawlist [] w1)
    as [(inet & Hrun & _)|(it & Hrun & _)].
  - exists (Ok inet).
    rewrite (wrap_exceptions_run _ self kind w (Ok inet) w1); [reflexivity|].
    rewrite Hkind, (bind_ok _ _ _ _ _ Hraw).
    rewrite (bool_decide_eq_false_2 _ Hne).
    rewrite (bind_ok _ _ w1 () w1) by reflexivity.
    rewrite (bind_ok _ _ _ _ _ Hrun).
    rewrite (bool_decide_eq_false_2 _ Hunix). reflexivity.
  - exists (Raise (KeyError (raw_status it))).
    rewrite (wrap_exceptions_run _ self kind w
               (Raise (KeyError (raw_status it))) w1); [reflexivity|].
    rewrite Hkind, (bind_ok _ _ _ _ _ Hraw).
    rewrite (bool_decide_eq_false_2 _ Hne).
    rewrite (bind_ok _ _ w1 () w1) by reflexivity.
    apply bind_raise. exact Hrun.
Qed.

Lemma get_connections_no_further_call_witness :
  exists outcome,
    get_connections Demo.os Demo.platform (__init__ 7) "inet" 0%nat
      = (outcome, 1%nat).
Proof.
  apply (get_connections_no_further_call Demo.os Demo.platform (__init__ 7)
           "inet" [2; 26] [2; 1] [Demo.listener] 0%nat 1%nat).
  - vm_compute. reflexivity.
  - reflexivity.
  - discriminate.
  - vm_compute. intros H. inversion H as [|? ? ? H']; subst.
    inversion H' as [|? ? ? H'']; subst. inversion H''.
Defined.

(** ** Further properties: working directory, terminal and status *)

(** X12.  When the link of the working directory cannot be read
    (ENOENT), [get_cwd] examines [/proc/<pid>]: if the process is there
    it returns [None] and raises nothing, and if the process is gone it
    raises NoSuchProcess. *)
Theorem get_cwd_unread_link {W float : Type} (os : OS W float) (self : Process)
    (w w1 : W) :
  os_readlink os ("/proc/" +:+ Py.str (pid self) +:+ "/path/cwd") w
    = (Raise (EnvironmentError errno.ENOENT), w1) ->
  (forall w2,
     os_stat os ("/proc/" +:+ Py.str (pid self)) w1 = (Ok tt, w2) ->
     get_cwd os self tt w = (Ok None, w2)) /\
  (forall w2,
     os_stat os ("/proc/" +:+ Py.str (pid self)) w1
       = (Raise (EnvironmentError errno.ENOENT), w2) ->
     get_cwd os self tt w
       = (Raise (NoSuchProcess (pid self) (_process_name self)), w2)).
Proof.
  intros Hread. split; intros w2 Hstat; unfold get_cwd.
  - rewrite (wrap_exceptions_run _ self tt w (Ok None) w2); [reflexivity|].
    unfold try_except_EnvironmentError. rewrite Hread.
    rewrite bool_decide_eq_true_2 by reflexivity.
    rewrite (bind_ok _ _ _ _ _ Hstat). reflexivity.
  - rewrite (wrap_exceptions_run _ self tt w
               (Raise (EnvironmentError errno.ENOENT)) w2); [reflexivity|].
    unfold try_except_EnvironmentError. rewrite Hread.
    rewrite bool_decide_eq_true_2 by reflexivity.
    apply bind_raise. exact Hstat.
Qed.

Lemma get_cwd_unread_link_witness :
  get_cwd DemoSys.os (__init__ 7) tt 0%nat = (Ok None, 2%nat) /\
  get_cwd DemoSys.os (__init__ 9) tt 0%nat = (Raise (NoSuchProcess 9 None), 2%nat).
Proof.
  split.
  - refine (proj1 (get_cwd_unread_link DemoSys.os (__init__ 7) 0%nat 1%nat _)
              2%nat _); reflexivity.
  - refine (proj2 (get_cwd_unread_link DemoSys.os (__init__ 9) 0%nat 1%nat _)
              2%nat _); reflexivity.
Defined.

Section Terminal.
Context {W float : Type} (os : OS W float) (sys : Sys W float) (cs : Consts)
  (self : Process).

Lemma get_terminal_loop (link : Z -> option string) (xs : list Z) :
  (forall x, x ∈ xs -> forall w,
     (os_readlink os
        ("/proc/" +:+ Py.str (pid self) +:+ "/path/" +:+ Py.str x) w).1
     = read_outcome (link x)) ->
  forall hit_enoent (w : W),
  exists w',
    for_return xs (get_terminal_step os self) hit_enoent w
    = (Ok match omap link xs with
          | target :: _ => inr target
          | [] => inl (match xs with [] => hit_enoent | _ => true end)
          end, w').
Proof.
  induction xs as [|x rest IH]; intros Hreads hit w.
  - exists w. reflexivity.
  - assert (Hrest : forall x', x' ∈ rest -> forall w,
              (os_readlink os
                 ("/proc/" +:+ Py.str (pid self) +:+ "/path/" +:+ Py.str x') w).1
              = read_outcome (link x'))
      by (intros x' Hin; apply Hreads, list_elem_of_further, Hin).
    destruct (run_fst _ _ _ (Hreads x (list_elem_of_here _ _) w)) as [w1 Hrun].
    cbn [for_return omap list_omap]. unfold bind, get_terminal_step at 1.
    unfold try_except_EnvironmentError. rewrite Hrun.
    destruct (link x) as [target|]; cbn [read_outcome].
    + exists w1. reflexivity.
    + rewrite bool_decide_eq_true_2 by reflexivity. cbn [pure].
      destruct (IH Hrest true w1) as [w' Hloop]. exists w'. rewrite Hloop.
      destruct (omap link rest); [|reflexivity]. destruct rest; reflexivity.
Qed.

End Terminal.

(** X13.  Once the basic information of the process is read,
    [get_terminal] tries the descriptors 0, 1, 2 and 255 in turn,
    whatever terminal the process table reports, be it none: it returns
    the target of the first link that can be read; when none can
    (ENOENT) it returns [None] if the process is there and raises
    NoSuchProcess if it is gone. *)
Theorem get_terminal_first_link {W float : Type} (os : OS W float)
    (sys : Sys W float) (cs : Consts) (self : Process) (w w1 : W)
    (info : basic_info) (link : Z -> option string) :
  get_proc_basic_info sys (pid self) w = (Ok info, w1) ->
  (forall x, x ∈ [0; 1; 2; 255] -> forall w,
     (os_readlink os
        ("/proc/" +:+ Py.str (pid self) +:+ "/path/" +:+ Py.str x) w).1
     = read_outcome (link x)) ->
  (forall target later,
     omap link [0; 1; 2; 255] = target :: later ->
     (get_terminal os sys cs self tt w).1 = Ok (Some target)) /\
  (omap link [0; 1; 2; 255] = [] ->
   (forall w, (os_stat os ("/proc/" +:+ Py.str (pid self)) w).1 = Ok tt) ->
   (get_terminal os sys cs self tt w).1 = Ok None) /\
  (omap link [0; 1; 2; 255] = [] ->
   (forall w, (os_stat os ("/proc/" +:+ Py.str (pid self)) w).1
              = Raise (EnvironmentError errno.ENOENT)) ->
   (get_terminal os sys cs self tt w).1
     = Raise (NoSuchProcess (pid self) (_process_name self))).
Proof.
  intros Hinfo Hreads.
  destruct (get_terminal_loop os self link [0; 1; 2; 255] Hreads false w1)
    as [w2 Hloop].
  repeat split.
  - intros target later Hfirst. rewrite Hfirst in Hloop. unfold get_terminal.
    rewrite (wrap_exceptions_run _ self tt w (Ok (Some target)) w2);
      [reflexivity|].
    cbv zeta. rewrite (bind_ok _ _ _ _ _ Hinfo).
    cbn [py_ne]. rewrite (bind_ok _ _ _ _ _ Hloop). reflexivity.
  - intros Hnone Halive. rewrite Hnone in Hloop.
    destruct (run_fst _ _ _ (Halive w2)) as [w3 Hstat]. unfold get_terminal.
    rewrite (wrap_exceptions_run _ self tt w (Ok None) w3); [reflexivity|].
    cbv zeta. rewrite (bind_ok _ _ _ _ _ Hinfo).
    cbn [py_ne]. rewrite (bind_ok _ _ _ _ _ Hloop).
    rewrite (bind_ok _ _ _ _ _ Hstat). reflexivity.
  - intros Hnone Hgone. rewrite Hnone in Hloop.
    destruct (run_fst _ _ _ (Hgone w2)) as [w3 Hstat]. unfold get_terminal.
    rewrite (wrap_exceptions_run _ self tt w
               (Raise (EnvironmentError errno.ENOENT)) w3); [reflexivity|].
    cbv zeta. rewrite (bind_ok _ _ _ _ _ Hinfo).
    cbn [py_ne]. rewrite (bind_ok _ _ _ _ _ Hloop).
    apply bind_raise. exact Hstat.
Qed.

(** On the simulated system the process table reports no terminal
    ([PRNODEV]) for process 7, whose descriptors 0 and 1 cannot be
    read. *)
Lemma get_terminal_first_link_witness :
  (get_terminal DemoSys.os DemoSys.sys DemoSys.consts (__init__ 7) tt 0%nat).1
  = Ok (Some "/dev/pts/2").
Proof.
  refine (proj1 (get_terminal_first_link DemoSys.os DemoSys.sys DemoSys.consts
                   (__init__ 7) 0%nat 1%nat
                   {| info_0 := PRNODEV DemoSys.consts; info_6 := 6 |}
                   (fun x => if (x =? 0) || (x =? 1) then None
                             else Some ("/dev/pts/" +:+ Py.str x)) _ _)
            "/dev/pts/2" ["/dev/pts/255"] _).
  - reflexivity.
  - intros x Hin.
    repeat (apply elem_of_cons in Hin as [-> | Hin]);
      [| | | | by apply elem_of_nil in Hin]; intros w; reflexivity.
  - reflexivity.
Defined.

(** A key that no item of a dict display has is not in the dict. *)
Lemma dict_lookup_None {V} (items : list (Z * V)) (k : Z) :
  k ∉ items.*1 -> dict items !! k = None.
Proof.
  unfold dict. generalize (∅ : gmap Z V) (lookup_empty (M:=gmap Z) (A:=V) k).
  induction items as [|[k' v] items IH]; intros m Hm Hk; [exact Hm|].
  cbn [fold_left]. apply IH.
  - cbn [fst snd]. rewrite lookup_insert_ne; [exact Hm|].
    intros ->. apply Hk. apply list_elem_of_here.
  - intros Hin. apply Hk. by apply list_elem_of_further.
Qed.

(** X14.  [get_status] does not fail on a status code: once the basic
    information of the process is read it returns, without another
    call.  A code that is none of the seven the table lists gives "?";
    the codes SRUN and SONPROC both give the status "running". *)
Theorem get_status_total {W float : Type} (sys : Sys W float) (cs : Consts)
    (self : Process) (w w1 : W) (info : basic_info) :
  get_proc_basic_info sys (pid self) w = (Ok info, w1) ->
  exists status,
    get_status sys cs self tt w = (Ok status, w1) /\
    (info_6 info ∉ [SSLEEP cs; SRUN cs; SZOMB cs; SSTOP cs; SIDL cs;
                    SONPROC cs; SWAIT cs] ->
     status = "?") /\
    (info_6 info = SRUN cs \/ info_6 info = SONPROC cs ->
     info_6 info ∉ [SZOMB cs; SSTOP cs; SIDL cs; SWAIT cs] ->
     status = STATUS_RUNNING cs).
Proof.
  intros Hinfo. exists (default "?" (PROC_STATUSES cs !! info_6 info)).
  split; [|split].
  - unfold get_status.
    rewrite (wrap_exceptions_run _ self tt w
               (Ok (default "?" (PROC_STATUSES cs !! info_6 info))) w1);
      [reflexivity|].
    rewrite (bind_ok _ _ _ _ _ Hinfo). reflexivity.
  - intros Hout. unfold PROC_STATUSES.
    rewrite dict_lookup_None; [reflexivity | exact Hout].
  - intros Hrun Hother. rewrite !elem_of_cons, elem_of_nil in Hother.
    unfold PROC_STATUSES, dict. cbn [fold_left fst snd].
    rewrite lookup_insert_ne by (intros Heq; rewrite <- Heq in Hother; tauto).
    destruct (decide (SONPROC cs = info_6 info)) as [Heq|Hne].
    { rewrite Heq, lookup_insert_eq. reflexivity. }
    rewrite lookup_insert_ne by exact Hne.
    rewrite !lookup_insert_ne by (intros Heq; rewrite <- Heq in Hother; tauto).
    destruct Hrun as [Heq | Heq]; [|congruence].
    rewrite Heq, lookup_insert_eq. reflexivity.
Qed.

Lemma get_status_total_witness :
  exists status,
    get_status DemoSys.sys DemoSys.consts (__init__ 7) tt 0%nat
      = (Ok status, 1%nat) /\
    (6 ∉ [1; 2; 3; 4; 5; 6; 7] -> status = "?") /\
    (6 = 2 \/ 6 = 6 -> 6 ∉ [3; 4; 5; 7] -> status = "running").
Proof.
  apply (get_status_total DemoSys.sys DemoSys.consts (__init__ 7) 0%nat 1%nat
           {| info_0 := -1; info_6 := 6 |}).
  reflexivity.
Defined.

(** ** Further properties: the system-wide functions *)









Lemma get_users_fold {float : Type} (rawlist : list (raw_user float)) :
  forall retlist,
    fold_left get_users_step rawlist retlist
    = retlist ++ (user_of <$> List.filter user_process rawlist).
Proof.
  induction rawlist as [|item rest IH]; intros retlist.
  - simpl. rewrite app_nil_r. reflexivity.
  - cbn [fold_left List.filter]. rewrite IH.
    destruct item as [[[[user tty] hostname] tstamp] process].
    unfold get_users_step, user_process. cbn [snd].
    destruct process; cbn [negb]; [|reflexivity].
    cbn [fmap list_fmap]. rewrite <- app_assoc. reflexivity.
Qed.

(** X16.  [get_users] returns one record for every raw entry that is a
    user process, in order, and none for the others (system boot, run
    level); it calls nothing but the one read of the raw entries.  A
    host [:0.0] or [:0] is shown as [localhost], so that no record
    returned has either as its host. *)
Theorem get_users_user_processes {W float : Type} (sys : Sys W float)
    (w w1 : W) (rawlist : list (raw_user float)) :
  sunos_get_users sys w = (Ok rawlist, w1) ->
  get_users sys w = (Ok (user_of <$> List.filter user_process rawlist), w1) /\
  forall u, u ∈ user_of <$> List.filter user_process rawlist ->
    user_host u <> ":0.0" /\ user_host u <> ":0".
Proof.
  intros Hraw. split.
  - unfold get_users. rewrite (bind_ok _ _ _ _ _ Hraw).
    rewrite get_users_fold. reflexivity.
  - intros u Hu. apply list_elem_of_fmap in Hu as (item & -> & _).
    destruct item as [[[[user tty] hostname] tstamp] process].
    unfold user_of. cbn [user_host]. case_bool_decide as Hlocal.
    + split; discriminate.
    + rewrite !elem_of_cons, elem_of_nil in Hlocal. split; intros ->; tauto.
Qed.

Lemma get_users_user_processes_witness :
  get_users DemoSys.sys 0%nat
    = (Ok [nt_sys_user "root" "console" "localhost" 100;
           nt_sys_user "ann" "pts/1" "10.0.0.5" 200], 1%nat).
Proof.
  refine (proj1 (get_users_user_processes DemoSys.sys 0%nat 1%nat
                   [("root", "console", ":0", 100, true);
                    ("system boot", "", "", 50, false);
                    ("ann", "pts/1", "10.0.0.5", 200, true)] _)).
  reflexivity.
Defined.

Section Partitions.
Context {W float : Type} (sys : Sys W float).

Lemma partition_of_device item : part_device (partition_of item) <> "none".
Proof.
  destruct item as [[[device mountpoint] fstype] opts].
  unfold partition_of. cbn [part_device].
  destruct (String.eqb_spec device "none"); [discriminate | assumption].
Qed.

Lemma disk_partitions_loop_all (partitions : list raw_partition) :
  forall retlist (w : W),
    for_ partitions (disk_partitions_step sys true) retlist w
    = (Ok (retlist ++ (partition_of <$> partitions)), w).
Proof.
  induction partitions as [|item rest IH]; intros retlist w.
  - rewrite for_nil, app_nil_r. reflexivity.
  - rewrite for_cons.
    destruct item as [[[device mountpoint] fstype] opts].
    unfold disk_partitions_step at 1. cbn [negb bind pure].
    rewrite IH. cbn [fmap list_fmap partition_of]. rewrite <- app_assoc.
    reflexivity.
Qed.

(** A turn of the loop of [disk_partitions(all=False)] that does not
    raise has asked for the usage of the mount point, and has added the
    record of the partition if and only if the total is not 0. *)
Lemma disk_partitions_step_inv item retlist (w w1 : W) retlist1 :
  disk_partitions_step sys false item retlist w = (Ok retlist1, w1) ->
  exists total,
    get_disk_usage sys (part_mountpoint (partition_of item)) w = (Ok total, w1) /\
    (total = 0 /\ retlist1 = retlist \/
     total <> 0 /\ retlist1 = retlist ++ [partition_of item]).
Proof.
  destruct item as [[[device mountpoint] fstype] opts].
  unfold disk_partitions_step, partition_of. cbn [negb part_mountpoint].
  unfold bind.
  destruct (get_disk_usage sys mountpoint w) as [[total|e] w2]; [|discriminate].
  cbn [pure]. destruct (Z.eqb_spec total 0) as [->|Hne].
  - intros [= <- <-]. exists 0. split; [reflexivity|]. left. split; reflexivity.
  - intros [= <- <-]. exists total. split; [reflexivity|]. right.
    split; [assumption | reflexivity].
Qed.

Lemma disk_partitions_loop_used (partitions : list raw_partition) :
  forall retlist (w w' : W) retlist',
    for_ partitions (disk_partitions_step sys false) retlist w
      = (Ok retlist', w') ->
    exists added,
      retlist' = retlist ++ added /\
      sublist added (partition_of <$> partitions) /\
      forall p, p ∈ added ->
        exists total w0 w0',
          get_disk_usage sys (part_mountpoint p) w0 = (Ok total, w0') /\
          total <> 0.
Proof.
  induction partitions as [|item rest IH]; intros retlist w w' retlist' Hrun.
  - rewrite for_nil in Hrun. injection Hrun as <- _.
    exists []. rewrite app_nil_r. split; [reflexivity|]. split; [constructor|].
    intros p Hp. by apply elem_of_nil in Hp.
  - rewrite for_cons in Hrun.
    destruct (disk_partitions_step sys false item retlist w)
      as [[retlist1|e] w1] eqn:Hstep; [|discriminate].
    destruct (disk_partitions_step_inv _ _ _ _ _ Hstep)
      as (total & Husage & [[_ ->] | [Hne ->]]);
      destruct (IH _ _ _ _ Hrun) as (added & -> & Hsub & Hused).
    + exists added. split; [reflexivity|]. split; [|exact Hused].
      cbn [fmap list_fmap]. by apply sublist_cons.
    + exists (partition_of item :: added). rewrite <- app_assoc.
      split; [reflexivity|]. split.
      * cbn [fmap list_fmap]. by apply sublist_skip.
      * intros p Hp. apply elem_of_cons in Hp as [-> | Hp]; [|exact (Hused p Hp)].
        exists total, w, w1. split; assumption.
Qed.

End Partitions.

(** X17.  [disk_partitions(all=True)] returns one record for every
    mounted file system, in order, and asks for the usage of none: the
    world is as the one read of the mount table left it.  A device
    reported as [none] is shown as the empty text. *)
Theorem disk_partitions_all {W float : Type} (sys : Sys W float) (w w1 : W)
    (partitions : list raw_partition) :
  sunos_get_disk_partitions sys w = (Ok partitions, w1) ->
  disk_partitions sys true w = (Ok (partition_of <$> partitions), w1) /\
  forall p, p ∈ partition_of <$> partitions -> part_device p <> "none".
Proof.
  intros Hraw. split.
  - unfold disk_partitions. rewrite (bind_ok _ _ _ _ _ Hraw).
    apply (disk_partitions_loop_all sys partitions []).
  - intros p Hp. apply list_elem_of_fmap in Hp as (item & -> & _).
    apply partition_of_device.
Qed.

Lemma disk_partitions_all_witness :
  disk_partitions DemoSys.sys true 0%nat
    = (Ok [nt_sys_diskpart "rpool/ROOT" "/" "zfs" "rw";
           nt_sys_diskpart "" "/proc" "proc" "rw";
           nt_sys_diskpart "swap" "/tmp" "tmpfs" "rw"], 1%nat).
Proof.
  refine (proj1 (disk_partitions_all DemoSys.sys 0%nat 1%nat
                   [("rpool/ROOT", "/", "zfs", "rw");
                    ("none", "/proc", "proc", "rw");
                    ("swap", "/tmp", "tmpfs", "rw")] _)).
  reflexivity.
Defined.

(** X18.  What [disk_partitions(all=False)] returns is taken, in order,
    from what it would return with [all=True]: every record is that of
    a mounted file system whose usage was asked for and whose total
    size was not 0, and none has the device [none]. *)
Theorem disk_partitions_used {W float : Type} (sys : Sys W float) (w w' : W)
    (ret : list partition) :
  disk_partitions sys false w = (Ok ret, w') ->
  exists partitions w1,
    sunos_get_disk_partitions sys w = (Ok partitions, w1) /\
    sublist ret (partition_of <$> partitions) /\
    forall p, p ∈ ret ->
      part_device p <> "none" /\
      exists total w0 w0',
        get_disk_usage sys (part_mountpoint p) w0 = (Ok total, w0') /\
        total <> 0.
Proof.
  intros Hrun. unfold disk_partitions, bind in Hrun.
  destruct (sunos_get_disk_partitions sys w) as [[partitions|e] w1];
    [|discriminate].
  destruct (disk_partitions_loop_used sys partitions _ _ _ _ Hrun)
    as (added & -> & Hsub & Hused).
  exists partitions, w1. split; [reflexivity|]. split; [exact Hsub|].
  intros p Hp. split; [|exact (Hused p Hp)].
  apply (fun H => elem_of_sublist _ _ _ H Hsub) in Hp.
  apply list_elem_of_fmap in Hp as (item & -> & _). apply partition_of_device.
Qed.

Lemma disk_partitions_used_witness :
  exists partitions w1,
    sunos_get_disk_partitions DemoSys.sys 0%nat = (Ok partitions, w1) /\
    sublist [nt_sys_diskpart "rpool/ROOT" "/" "zfs" "rw";
             nt_sys_diskpart "swap" "/tmp" "tmpfs" "rw"]
            (partition_of <$> partitions) /\
    forall p, p ∈ [nt_sys_diskpart "rpool/ROOT" "/" "zfs" "rw";
                   nt_sys_diskpart "swap" "/tmp" "tmpfs" "rw"] ->
      part_device p <> "none" /\
      exists total w0 w0',
        get_disk_usage DemoSys.sys (part_mountpoint p) w0 = (Ok total, w0') /\
        total <> 0.
Proof.
  apply (disk_partitions_used DemoSys.sys 0%nat 4%nat).
  reflexivity.
Defined.

Section Swap.
Context {W float : Type} (sys : Sys W float) (cs : Consts).

(** A text without the separator is one piece. *)
Lemma split_one_piece sep s : Py.has_char sep s = false -> Py.split sep s = [s].
Proof.
  induction s as [|c s IH]; [reflexivity|].
  cbn [Py.has_char Py.split]. intros [Hc Hs]%orb_false_iff.
  rewrite Ascii.eqb_sym, Hc, (IH Hs). reflexivity.
Qed.

Lemma last2_app {A} (pre : list A) (a b : A) :
  PyText.last2 (pre ++ [a; b]) = [a; b].
Proof.
  unfold PyText.last2. rewrite length_app. cbn [length].
  replace (length pre + 2 - 2)%nat with (length pre) by lia.
  induction pre; [reflexivity | assumption].
Qed.

(** A turn of the loop of [swap_memory] that does not raise has added a
    multiple of 1024 to each total. *)
Lemma swap_memory_step_inv line total free (w w1 : W) total1 free1 :
  swap_memory_step line (total, free) w = (Ok (total1, free1), w1) ->
  exists t f, total1 = total + t * 1024 /\ free1 = free + f * 1024 /\ w1 = w.
Proof.
  unfold swap_memory_step.
  destruct (PyText.last2 (PyText.split line)) as [|t [|f [|]]]; try discriminate.
  unfold int, bind, pure.
  destruct (Py.int (PyText.replace "K" "" t)) as [t'|]; [|discriminate].
  destruct (Py.int (PyText.replace "K" "" f)) as [f'|]; [|discriminate].
  intros [= <- <- <-]. eauto.
Qed.

(** A line whose last two fields are numbers of kilobytes adds them. *)
Lemma swap_memory_step_fields line pre t_text f_text t f total free (w : W) :
  PyText.split line = pre ++ [t_text; f_text] ->
  Py.int (PyText.replace "K" "" t_text) = Some t ->
  Py.int (PyText.replace "K" "" f_text) = Some f ->
  swap_memory_step line (total, free) w
    = (Ok (total + t * 1024, free + f * 1024), w).
Proof.
  intros Hfields Ht Hf. unfold swap_memory_step.
  rewrite Hfields, last2_app. unfold int, bind, pure. rewrite Ht, Hf.
  reflexivity.
Qed.

Lemma swap_memory_loop_fields (lines : list string) (sizes : list (Z * Z)) :
  Forall2 (fun line size =>
             exists pre t_text f_text,
               PyText.split line = pre ++ [t_text; f_text] /\
               Py.int (PyText.replace "K" "" t_text) = Some size.1 /\
               Py.int (PyText.replace "K" "" f_text) = Some size.2)
          lines sizes ->
  forall total free (w : W),
    for_ lines swap_memory_step (total, free) w
    = (Ok (total + 1024 * foldr Z.add 0 sizes.*1,
           free + 1024 * foldr Z.add 0 sizes.*2), w).
Proof.
  induction 1 as [|line [t f] lines sizes (pre & tt_ & ft & Hs & Ht & Hf) _ IH];
    intros total free w.
  - rewrite for_nil. cbn. do 2 f_equal; f_equal; lia.
  - rewrite for_cons, (swap_memory_step_fields _ _ _ _ _ _ _ _ _ Hs Ht Hf), IH.
    cbn [fmap list_fmap foldr fst snd]. do 2 f_equal; f_equal; lia.
Qed.

End Swap.

(** X19.  [swap_memory] raises RuntimeError, and returns no figures,
    when [swap -l -k] ends with a return code other than 0, whatever it
    printed, and when it ends with 0 but its output, stripped, has no
    second line: no swap device is listed under the header. *)
Theorem swap_memory_failure {W float : Type} (sys : Sys W float) (cs : Consts)
    (w w1 w2 : W) (sin sout returncode : Z) (stdout : string) :
  get_swap_mem sys w = (Ok (sin, sout), w1) ->
  swap_l_k sys w1 = (Ok (returncode, stdout), w2) ->
  (returncode <> 0 ->
   exists msg, swap_memory sys cs w = (Raise (RuntimeError msg), w2)) /\
  (returncode = 0 ->
   Py.has_char (ascii_of_nat 10) (Py.strip stdout) = false ->
   swap_memory sys cs w
     = (Raise (RuntimeError "no swap device(s) configured"), w2)).
Proof.
  intros Hmem Hswap. split.
  - intros Hcode. unfold swap_memory.
    rewrite (bind_ok _ _ _ _ _ Hmem). cbv beta iota.
    rewrite (bind_ok _ _ _ _ _ Hswap). cbv beta iota.
    rewrite (proj2 (negb_true_iff _) (proj2 (Z.eqb_neq _ _) Hcode)).
    eexists. reflexivity.
  - intros -> Hone. unfold swap_memory.
    rewrite (bind_ok _ _ _ _ _ Hmem). cbv beta iota.
    rewrite (bind_ok _ _ _ _ _ Hswap). cbv beta iota zeta.
    rewrite (split_one_piece _ _ Hone). reflexivity.
Qed.

Lemma swap_memory_failure_witness :
  exists msg,
    swap_memory
      {| get_proc_basic_info := get_proc_basic_info DemoSys.sys;
         sunos_get_users := sunos_get_users DemoSys.sys;
         sunos_get_disk_partitions := sunos_get_disk_partitions DemoSys.sys;
         get_disk_usage := get_disk_usage DemoSys.sys;
         get_swap_mem := get_swap_mem DemoSys.sys;
         swap_l_k := Demo.tick (Ok (2, "usage: swap"));
         usage_percent := usage_percent DemoSys.sys |}
      DemoSys.consts 0%nat
    = (Raise (RuntimeError msg), 2%nat).
Proof.
  refine (proj1 (swap_memory_failure _ DemoSys.consts 0%nat 1%nat 2%nat 3 5 2
                   "usage: swap" _ _) _).
  - reflexivity.
  - reflexivity.
  - discriminate.
Defined.

(** X20.  In the figures [swap_memory] returns, used and free make up
    the total, total and free are whole numbers of kilobytes given in
    bytes, and the pages swapped in and out are given in bytes, as
    multiples of the page size. *)
Theorem swap_memory_figures {W float : Type} (sys : Sys W float) (cs : Consts)
    (w w' : W) (figures : swap float) :
  swap_memory sys cs w = (Ok figures, w') ->
  swap_used figures + swap_free figures = swap_total figures /\
  (1024 | swap_total figures) /\
  (1024 | swap_free figures) /\
  exists sin sout w1,
    get_swap_mem sys w = (Ok (sin, sout), w1) /\
    swap_sin figures = sin * PAGE_SIZE cs /\
    swap_sout figures = sout * PAGE_SIZE cs.
Proof.
  unfold swap_memory. unfold bind at 1.
  destruct (get_swap_mem sys w) as [[[sin sout]|e] w1]; [|discriminate].
  unfold bind at 1.
  destruct (swap_l_k sys w1) as [[[returncode stdout]|e] w2]; [|discriminate].
  unfold bind at 1. destruct (negb (returncode =? 0)); [discriminate|].
  cbn [pure]. cbv zeta. unfold bind at 1.
  case_bool_decide; [discriminate|]. cbn [pure]. unfold bind.
  destruct (for_ _ swap_memory_step (0, 0) w2) as [[[total free]|e] w3] eqn:Hloop;
    [|discriminate].
  intros [= <- _].
  apply (for_invariant (fun vars => (1024 | vars.1) /\ (1024 | vars.2))) in Hloop.
  - cbn [swap_used swap_free swap_total swap_sin swap_sout fst snd] in *.
    destruct Hloop as [Htotal Hfree].
    split; [lia|]. split; [exact Htotal|]. split; [exact Hfree|].
    exists sin, sout, w1. repeat split.
  - intros line [t f] w0 [t1 f1] w0' [Ht Hf] Hstep.
    destruct (swap_memory_step_inv _ _ _ _ _ _ _ Hstep) as (dt & df & -> & -> & _).
    cbn [fst snd] in *. split; apply Z.divide_add_r; try assumption;
      apply Z.divide_factor_r.
  - cbn [fst snd]. split; apply Z.divide_0_r.
Qed.

Lemma swap_memory_figures_witness :
  let figures := nt_sys_swap 2684338176 24862720 2659475456 0 12288 20480 in
  swap_used figures + swap_free figures = swap_total figures /\
  (1024 | swap_total figures) /\
  (1024 | swap_free figures) /\
  exists sin sout w1,
    get_swap_mem DemoSys.sys 0%nat = (Ok (sin, sout), w1) /\
    swap_sin figures = sin * PAGE_SIZE DemoSys.consts /\
    swap_sout figures = sout * PAGE_SIZE DemoSys.consts.
Proof.
  apply (swap_memory_figures DemoSys.sys DemoSys.consts 0%nat 2%nat).
  vm_compute. reflexivity.
Defined.

Lemma split_app sep piece rest :
  Py.has_char sep piece = false ->
  Py.split sep (piece +:+ String sep rest) = piece :: Py.split sep rest.
Proof.
  induction piece as [|c piece IH]; intros Hpiece.
  - change (EmptyString +:+ String sep rest) with (String sep rest).
    cbn [Py.split]. rewrite Ascii.eqb_refl. reflexivity.
  - cbn [Py.has_char] in Hpiece. apply orb_false_iff in Hpiece as [Hc Hp].
    change (String c piece +:+ String sep rest)
      with (String c (piece +:+ String sep rest)).
    cbn [Py.split]. rewrite Ascii.eqb_sym, Hc, (IH Hp).
    reflexivity.
Qed.

(** Cutting what [join] put together gives the pieces back. *)
Lemma split_join sep piece pieces :
  Forall (fun p => Py.has_char sep p = false) (piece :: pieces) ->
  Py.split sep (Py.join (String sep EmptyString) (piece :: pieces))
  = piece :: pieces.
Proof.
  unfold Py.join. revert piece.
  induction pieces as [|next pieces IH]; intros piece Hall.
  - apply split_one_piece. by inversion Hall.
  - inversion Hall as [|? ? Hpiece Hrest]; subst.
    change (String.concat (String sep EmptyString) (piece :: next :: pieces))
      with (piece +:+ String sep
              (String.concat (String sep EmptyString) (next :: pieces))).
    rewrite (split_app _ _ _ Hpiece), (IH next Hrest). reflexivity.
Qed.

(** X21.  When [swap -l -k] ends with 0 and prints a header and, below
    it, at least one line per swap device, each ending with the fields
    of its size and of its free space in kilobytes, [swap_memory]
    returns, with no further call, a total that is the sum of the sizes
    and a free figure that is the sum of the free spaces, both in
    bytes. *)
Theorem swap_memory_sums {W float : Type} (sys : Sys W float) (cs : Consts)
    (w w1 w2 : W) (sin sout : Z) (stdout header : string)
    (lines : list string) (sizes : list (Z * Z)) :
  get_swap_mem sys w = (Ok (sin, sout), w1) ->
  swap_l_k sys w1 = (Ok (0, stdout), w2) ->
  Py.strip stdout = Py.join (String (ascii_of_nat 10) EmptyString) (header :: lines) ->
  Forall (fun l => Py.has_char (ascii_of_nat 10) l = false) (header :: lines) ->
  lines <> [] ->
  Forall2 (fun line size =>
             exists pre t_text f_text,
               PyText.split line = pre ++ [t_text; f_text] /\
               Py.int (PyText.replace "K" "" t_text) = Some size.1 /\
               Py.int (PyText.replace "K" "" f_text) = Some size.2)
          lines sizes ->
  exists figures,
    swap_memory sys cs w = (Ok figures, w2) /\
    swap_total figures = 1024 * foldr Z.add 0 sizes.*1 /\
    swap_free figures = 1024 * foldr Z.add 0 sizes.*2.
Proof.
  intros Hmem Hswap Hout Hlines Hsome Hsizes. unfold swap_memory.
  rewrite (bind_ok _ _ _ _ _ Hmem). cbv beta iota.
  rewrite (bind_ok _ _ _ _ _ Hswap). cbv beta iota zeta.
  rewrite Hout, (split_join _ _ _ Hlines). cbn [Py.slice_from skipn negb Z.eqb].
  rewrite (bind_ok _ _ w2 () w2) by reflexivity.
  rewrite (bool_decide_eq_false_2 _ Hsome).
  rewrite (bind_ok _ _ w2 () w2) by reflexivity.
  rewrite (bind_ok _ _ _ _ _ (swap_memory_loop_fields lines sizes Hsizes 0 0 w2)).
  eexists. split; [reflexivity|]. cbn [swap_total swap_free]. split; lia.
Qed.

Lemma swap_memory_sums_witness :
  exists figures,
    swap_memory DemoSys.sys DemoSys.consts 0%nat = (Ok figures, 2%nat) /\
    swap_total figures
      = 1024 * foldr Z.add 0 [(2097144, 2097144); (524280, 500000)].*1 /\
    swap_free figures
      = 1024 * foldr Z.add 0 [(2097144, 2097144); (524280, 500000)].*2.
Proof.
  apply (swap_memory_sums DemoSys.sys DemoSys.consts 0%nat 1%nat 2%nat 3 5
           DemoSys.swap_l_k_out
           "swapfile             dev    swaplo   blocks     free"
           ["/dev/zvol/dsk/rpool/swap 303,1        8K  2097144K  2097144K";
            "/dev/dsk/c0t0d0s1   118,1         8K   524280K   500000K"]).
  - reflexivity.
  - reflexivity.
  - vm_compute. reflexivity.
  - repeat constructor.
  - discriminate.
  - constructor; [|constructor; [|constructor]].
    + exists ["/dev/zvol/dsk/rpool/swap"; "303,1"; "8K"], "2097144K", "2097144K".
      repeat split; vm_compute; reflexivity.
    + exists ["/dev/dsk/c0t0d0s1"; "118,1"; "8K"], "524280K", "500000K".
      repeat split; vm_compute; reflexivity.
Defined.

(** ** Further properties: address ranges and the status table *)

Lemma hex_digits_not_nil (n : N) : N.to_hex_uint n <> Hexadecimal.Nil.
Proof.
  intros Hnil. pose proof (HexadecimalN.Unsigned.of_to n) as Hback.
  rewrite Hnil in Hback. cbn in Hback. subst n. discriminate.
Qed.

Lemma hex_value_digits (n : N) :
  hex_value (HexadecimalString.NilZero.string_of_uint (N.to_hex_uint n))
  = Some (Z.of_N n).
Proof.
  unfold hex_value.
  rewrite (HexadecimalString.NilZero.usu _ (hex_digits_not_nil n)).
  cbn [fmap option_fmap option_map]. rewrite HexadecimalN.Unsigned.of_to.
  reflexivity.
Qed.

(** A hexadecimal numeral holds neither the suffix [L] nor a dash. *)
Lemma hex_digits_chars (d : Hexadecimal.uint) :
  Py.has_char "L" (HexadecimalString.NilZero.string_of_uint d) = false /\
  Py.has_char "-" (HexadecimalString.NilZero.string_of_uint d) = false.
Proof.
  assert (Hall : Py.has_char "L" (HexadecimalString.NilEmpty.string_of_uint d) = false /\
                 Py.has_char "-" (HexadecimalString.NilEmpty.string_of_uint d) = false).
  { induction d as [|d [IH1 IH2]|d [IH1 IH2]|d [IH1 IH2]|d [IH1 IH2]|d [IH1 IH2]
                    |d [IH1 IH2]|d [IH1 IH2]|d [IH1 IH2]|d [IH1 IH2]|d [IH1 IH2]
                    |d [IH1 IH2]|d [IH1 IH2]|d [IH1 IH2]|d [IH1 IH2]|d [IH1 IH2]
                    |d [IH1 IH2]];
      cbn [HexadecimalString.NilEmpty.string_of_uint Py.has_char];
      rewrite ?IH1, ?IH2; split; reflexivity. }
  destruct d; exact Hall.
Qed.

Lemma rstrip_absent c s :
  Py.has_char c s = false -> Py.rstrip_chars [c] s = s.
Proof.
  induction s as [|d s IH]; [reflexivity|].
  cbn [Py.has_char]. intros [Hd Hs]%orb_false_iff.
  cbn [Py.rstrip_chars]. rewrite (IH Hs).
  destruct s; [|reflexivity].
  unfold Py.char_in. cbn [existsb]. rewrite Ascii.eqb_sym, Hd. reflexivity.
Qed.

Lemma strip_absent c s :
  Py.has_char c s = false -> Py.strip_chars [c] s = s.
Proof.
  intros Hs. unfold Py.strip_chars.
  destruct s as [|d s]; [reflexivity|].
  pose proof Hs as Hs'. cbn [Py.has_char] in Hs'.
  apply orb_false_iff in Hs' as [Hd _].
  cbn [Py.lstrip_chars]. unfold Py.char_in at 1. cbn [existsb].
  rewrite Ascii.eqb_sym, Hd. cbn [orb]. apply rstrip_absent, Hs.
Qed.

(** X22.  For an address range that is not negative, [toaddr] writes the
    two bounds as hexadecimal numerals, without prefix or suffix,
    joined by one dash: cutting the text at the dash and reading the
    two numerals gives the bounds back. *)
Theorem toaddr_reads_back (start end_ : Z) :
  0 <= start -> 0 <= end_ ->
  exists low high,
    Py.split "-" (toaddr start end_) = [low; high] /\
    hex_value low = Some start /\
    hex_value high = Some end_.
Proof.
  intros Hstart Hend.
  exists (HexadecimalString.NilZero.string_of_uint (N.to_hex_uint (Z.abs_N start))),
         (HexadecimalString.NilZero.string_of_uint (N.to_hex_uint (Z.abs_N end_))).
  destruct (hex_digits_chars (N.to_hex_uint (Z.abs_N start))) as [HL1 Hd1].
  destruct (hex_digits_chars (N.to_hex_uint (Z.abs_N end_))) as [HL2 Hd2].
  split; [|split].
  - unfold toaddr, Py.hex.
    rewrite (proj2 (Z.ltb_ge start 0) Hstart), (proj2 (Z.ltb_ge end_ 0) Hend).
    change (Py.drop 2 ("0x" +:+ ?s)) with s.
    rewrite (strip_absent _ _ HL1), (strip_absent _ _ HL2).
    change ("-" +:+ ?s) with (String "-" s).
    rewrite (split_app _ _ _ Hd1), (split_one_piece _ _ Hd2). reflexivity.
  - rewrite hex_value_digits, N2Z.inj_abs_N, Z.abs_eq by assumption. reflexivity.
  - rewrite hex_value_digits, N2Z.inj_abs_N, Z.abs_eq by assumption. reflexivity.
Qed.

Lemma toaddr_reads_back_witness :
  exists low high,
    Py.split "-" (toaddr 134512640 134545408) = [low; high] /\
    hex_value low = Some 134512640 /\
    hex_value high = Some 134545408.
Proof.
  apply (toaddr_reads_back 134512640 134545408); lia.
Defined.

Lemma dict_fold_notin {V} (items : list (Z * V)) (m : gmap Z V) (k : Z) :
  k ∉ items.*1 ->
  fold_left (fun m kv => <[kv.1 := kv.2]> m) items m !! k = m !! k.
Proof.
  revert m. induction items as [|[k' v] items IH]; intros m Hk; [reflexivity|].
  cbn [fold_left fst snd]. rewrite IH.
  - apply lookup_insert_ne. intros ->. apply Hk, list_elem_of_here.
  - intros Hin. apply Hk. by apply list_elem_of_further.
Qed.

(** With keys that differ, every item of a dict display is in the dict. *)
Lemma dict_lookup_listed {V} (items : list (Z * V)) (k : Z) (v : V) :
  NoDup items.*1 -> (k, v) ∈ items -> dict items !! k = Some v.
Proof.
  unfold dict. generalize (∅ : gmap Z V).
  induction items as [|[k' v'] items IH]; intros m Hnodup Hin.
  - by apply elem_of_nil in Hin.
  - cbn [fmap list_fmap fst] in Hnodup. apply NoDup_cons in Hnodup as [Hk' Hrest].
    cbn [fold_left fst snd]. apply elem_of_cons in Hin as [[= -> ->] | Hin].
    + rewrite (dict_fold_notin _ _ _ Hk'). apply lookup_insert_eq.
    + apply IH; assumption.
Qed.

(** What is in a dict is an item of its display. *)
Lemma dict_lookup_inv {V} (items : list (Z * V)) (k : Z) (v : V) :
  dict items !! k = Some v -> (k, v) ∈ items.
Proof.
  unfold dict.
  assert (Hgen : forall m : gmap Z V,
            fold_left (fun m kv => <[kv.1 := kv.2]> m) items m !! k = Some v ->
            (k, v) ∈ items \/ m !! k = Some v).
  { induction items as [|[k' v'] items IH]; intros m Hlook; [right; exact Hlook|].
    cbn [fold_left fst snd] in Hlook. destruct (IH _ Hlook) as [Hin | Hm].
    - left. by apply list_elem_of_further.
    - destruct (decide (k' = k)) as [->|Hne].
      + rewrite lookup_insert_eq in Hm. injection Hm as ->.
        left. apply list_elem_of_here.
      + rewrite lookup_insert_ne in Hm by exact Hne. right. exact Hm. }
  intros Hlook. destruct (Hgen ∅ Hlook) as [Hin | Hempty]; [exact Hin|].
  rewrite lookup_empty in Hempty. discriminate.
Qed.

(** X23.  [TCP_STATUSES] gives a code the status its display pairs it
    with and no other, and it gives no two codes the same status; when
    the fourteen codes of the platform differ from one another, every
    one of them has its status in the table. *)
Theorem TCP_STATUSES_pairs (pf : Platform) :
  (forall code status,
     TCP_STATUSES pf !! code = Some status ->
     (code, status) ∈ TCP_STATUSES_items pf) /\
  (forall code code' status,
     TCP_STATUSES pf !! code = Some status ->
     TCP_STATUSES pf !! code' = Some status ->
     code = code') /\
  (NoDup (TCP_STATUSES_items pf).*1 ->
   forall code status,
     (code, status) ∈ TCP_STATUSES_items pf ->
     TCP_STATUSES pf !! code = Some status).
Proof.
  split; [|split].
  - intros code status. apply (dict_lookup_inv (TCP_STATUSES_items pf)).
  - intros code code' status Hc Hc'.
    apply (dict_lookup_inv (TCP_STATUSES_items pf)) in Hc, Hc'.
    unfold TCP_STATUSES_items in Hc, Hc'.
    repeat (apply elem_of_cons in Hc as [[= -> ->] | Hc]);
      try (by apply elem_of_nil in Hc);
      repeat (apply elem_of_cons in Hc' as [[= Hcode]| Hc']);
      try (by apply elem_of_nil in Hc'); congruence.
  - intros Hnodup code status.
    apply (dict_lookup_listed (TCP_STATUSES_items pf) _ _ Hnodup).
Qed.

Lemma TCP_STATUSES_pairs_witness :
  TCP_STATUSES Demo.platform !! (-3) = Some CONN_LISTEN.
Proof.
  refine (proj2 (proj2 (TCP_STATUSES_pairs Demo.platform)) _ (-3) CONN_LISTEN _).
  - apply (bool_decide_unpack _). vm_compute. exact I.
  - unfold TCP_STATUSES_items.
    do 9 apply list_elem_of_further. apply list_elem_of_here.
Defined.
